(** * Empathetic code reviewer: the deterministic core of [code_reviewer.py]

    A shallow embedding of [EmpathticCodeReviewer]: language detection,
    comment-severity assessment, resource selection, quality scoring, the
    choice of the batch severity and the input validation of
    [generate_review_report], followed by the properties of these functions.

    Conventions of the embedding.
    - A Python [str] is a [string], read as the sequence of its code points;
      the text covered is the range U+0000..U+00FF, on which [lower] and
      [strip] below are what [str.lower] and [str.strip] compute.
    - The scores are Python floats.  Every value the scorer computes is a
      multiple of 1/8 of small magnitude (7.0 plus penalties out of -2.0,
      -1.0 and -0.5, clamped, summed and divided by 4), so binary64
      arithmetic is exact on them and they are modelled as rationals [Q];
      numeric equality of scores is [==].
    - A raised exception is a value [Raise e] of the [result] type. *)

From Stdlib Require Import String Ascii List Bool Arith NArith ZArith QArith Lia Lqa.
From Stdlib Require Import QArith.Qminmax Sorting.Permutation.
Import ListNotations.

Close Scope Q_scope.
Open Scope string_scope.
Open Scope list_scope.
Open Scope nat_scope.

(** ** Python strings *)

Module PyStr.

(** [str.lower] on one code point of U+0000..U+00FF: A-Z and the
    accented capitals U+00C0..U+00DE (U+00D7, the multiplication sign,
    apart) move 32 places up, everything else stays. *)
Definition lower_char (c : ascii) : ascii :=
  let n := N_of_ascii c in
  if (((65 <=? n) && (n <=? 90))
      || ((192 <=? n) && (n <=? 222) && negb (n =? 215)))%N
  then ascii_of_N (n + 32)
  else c.

Fixpoint lower (s : string) : string :=
  match s with
  | EmptyString => EmptyString
  | String c s' => String (lower_char c) (lower s')
  end.

(** [str.isspace] on one code point of U+0000..U+00FF. *)
Definition is_space (c : ascii) : bool :=
  let n := N_of_ascii c in
  (((9 <=? n) && (n <=? 13)) || ((28 <=? n) && (n <=? 32))
   || (n =? 133) || (n =? 160))%N.

Fixpoint lstrip (s : string) : string :=
  match s with
  | EmptyString => EmptyString
  | String c s' => if is_space c then lstrip s' else s
  end.

Fixpoint rstrip (s : string) : string :=
  match s with
  | EmptyString => EmptyString
  | String c s' =>
      match rstrip s' with
      | EmptyString => if is_space c then EmptyString else String c EmptyString
      | r => String c r
      end
  end.

(** [s.strip()] *)
Definition strip (s : string) : string := rstrip (lstrip s).

(** [needle in hay] *)
Fixpoint contains (needle hay : string) : bool :=
  prefix needle hay
  || match hay with
     | EmptyString => false
     | String _ hay' => contains needle hay'
     end.

(** [any(w in text for w in words)] *)
Definition any_in (words : list string) (text : string) : bool :=
  existsb (fun w => contains w text) words.

(** [sum(1 for w in words if w in text)] *)
Definition count_in (words : list string) (text : string) : nat :=
  length (filter (fun w => contains w text) words).

End PyStr.
Import PyStr.

(** ** Dictionaries and exceptions *)

(** A [dict] with [str] keys, in insertion order. *)
Definition dict (V : Type) : Type := list (string * V).

Fixpoint dict_lookup {V : Type} (k : string) (d : dict V) : option V :=
  match d with
  | [] => None
  | (k', v) :: d' => if String.eqb k k' then Some v else dict_lookup k d'
  end.

(** [k in d] *)
Definition dict_mem {V : Type} (k : string) (d : dict V) : bool :=
  match dict_lookup k d with Some _ => true | None => false end.

(** [d.get(k, default)] *)
Definition dict_get {V : Type} (k : string) (default : V) (d : dict V) : V :=
  match dict_lookup k d with Some v => v | None => default end.

(** [list(d.keys())] *)
Definition dict_keys {V : Type} (d : dict V) : list string := map fst d.

Inductive exn_class : Type :=
| ValueError
| AttributeError
| PyException.

Record exn : Type := mkExn { exn_kind : exn_class; exn_msg : string }.

Inductive result (A : Type) : Type :=
| Ok (a : A)
| Raise (e : exn).
Arguments Ok {A} a.
Arguments Raise {A} e.

Definition bind {A B : Type} (r : result A) (k : A -> result B) : result B :=
  match r with
  | Ok a => k a
  | Raise e => Raise e
  end.

Notation "x <- r ;; k" := (bind r (fun x => k))
  (at level 61, r at next level, right associativity).

Definition is_ok {A : Type} (r : result A) : bool :=
  match r with Ok _ => true | Raise _ => false end.

(** ** The reviewer *)

Inductive ReviewerPersona : Type :=
| SENIOR_DEVELOPER
| TECH_LEAD
| PAIR_PROGRAMMING
| MENTOR.

Definition persona_value (p : ReviewerPersona) : string :=
  match p with
  | SENIOR_DEVELOPER => "senior_developer"
  | TECH_LEAD => "tech_lead"
  | PAIR_PROGRAMMING => "pair_programming"
  | MENTOR => "mentor"
  end.

Record CodeQualityScore : Type := mkScore {
  overall_score : Q;
  readability : Q;
  performance : Q;
  maintainability : Q;
  best_practices : Q;
  improvement_potential : Q
}.

Record LanguageConfig : Type := mkConfig {
  extensions : list string;
  keywords : list string;
  resources : dict string
}.

Definition python_config : LanguageConfig := {|
  extensions := [".py"];
  keywords := ["def"; "class"; "import"; "from"; "if"; "for"; "while"; "try"; "except"];
  resources := [
    ("naming", "[PEP 8 - Naming Conventions](https://peps.python.org/pep-0008/#naming-conventions)");
    ("performance", "[Python Performance Tips](https://wiki.python.org/moin/PythonSpeed/PerformanceTips)");
    ("comprehension", "[List Comprehensions](https://docs.python.org/3/tutorial/datastructures.html#list-comprehensions)");
    ("style", "[PEP 8 - Style Guide](https://peps.python.org/pep-0008/)");
    ("docstrings", "[PEP 257 - Docstring Conventions](https://peps.python.org/pep-0257/)")]
|}.

Definition javascript_config : LanguageConfig := {|
  extensions := [".js"; ".jsx"; ".ts"; ".tsx"];
  keywords := ["function"; "const"; "let"; "var"; "class"; "import"; "export"; "if"; "for"; "while"];
  resources := [
    ("naming", "[JavaScript Naming Conventions](https://developer.mozilla.org/en-US/docs/MDN/Writing_guidelines/Writing_style_guide/Code_style_guide/JavaScript#naming_conventions)");
    ("performance", "[JavaScript Performance Best Practices](https://developer.mozilla.org/en-US/docs/Learn/Performance/JavaScript)");
    ("style", "[Airbnb JavaScript Style Guide](https://github.com/airbnb/javascript)");
    ("async", "[Async/Await Best Practices](https://developer.mozilla.org/en-US/docs/Learn/JavaScript/Asynchronous/Async_await)");
    ("es6", "[ES6 Features Guide](https://developer.mozilla.org/en-US/docs/Web/JavaScript/New_in_JavaScript/ECMAScript_6_support_in_Mozilla)")]
|}.

Definition java_config : LanguageConfig := {|
  extensions := [".java"];
  keywords := ["public"; "private"; "protected"; "class"; "interface"; "extends"; "implements"];
  resources := [
    ("naming", "[Java Naming Conventions](https://www.oracle.com/java/technologies/javase/codeconventions-namingconventions.html)");
    ("performance", "[Java Performance Tuning](https://docs.oracle.com/javase/8/docs/technotes/guides/performance/)");
    ("style", "[Google Java Style Guide](https://google.github.io/styleguide/javaguide.html)");
    ("concurrency", "[Java Concurrency Tutorial](https://docs.oracle.com/javase/tutorial/essential/concurrency/)")]
|}.

Definition cpp_config : LanguageConfig := {|
  extensions := [".cpp"; ".cc"; ".cxx"; ".h"; ".hpp"];
  keywords := ["class"; "struct"; "namespace"; "template"; "public"; "private"; "protected"];
  resources := [
    ("naming", "[C++ Core Guidelines - Naming](https://isocpp.github.io/CppCoreGuidelines/CppCoreGuidelines#S-naming)");
    ("performance", "[C++ Performance Guidelines](https://isocpp.github.io/CppCoreGuidelines/CppCoreGuidelines#S-performance)");
    ("style", "[Google C++ Style Guide](https://google.github.io/styleguide/cppguide.html)");
    ("modern", "[Modern C++ Best Practices](https://isocpp.github.io/CppCoreGuidelines/CppCoreGuidelines)")]
|}.

Definition go_config : LanguageConfig := {|
  extensions := [".go"];
  keywords := ["func"; "type"; "struct"; "interface"; "package"; "import"; "var"; "const"];
  resources := [
    ("naming", "[Go Code Review Comments](https://github.com/golang/go/wiki/CodeReviewComments)");
    ("performance", "[Go Performance Tips](https://github.com/golang/go/wiki/Performance)");
    ("style", "[Effective Go](https://golang.org/doc/effective_go.html)");
    ("fmt", "[Go Formatting Guidelines](https://golang.org/doc/effective_go.html#formatting)")]
|}.

Definition _init_language_configs : dict LanguageConfig := [
  ("python", python_config);
  ("javascript", javascript_config);
  ("java", java_config);
  ("cpp", cpp_config);
  ("go", go_config)].

Definition language_configs : dict LanguageConfig := _init_language_configs.

Definition get_supported_languages : list string := dict_keys language_configs.

Definition python_patterns : list string :=
  ["def "; "class "; "import "; "from "; "elif"; "__init__"].
Definition javascript_patterns : list string :=
  ["function"; "const "; "let "; "=>"; "console.log"].
Definition java_patterns : list string :=
  ["public class"; "private "; "protected "; "import java"].
Definition cpp_patterns : list string :=
  ["#include"; "namespace"; "std::"; "template<"].
Definition go_patterns : list string :=
  ["func "; "package "; "import ("; "type "].

Definition _detect_language (code_snippet : string) : string :=
  let code_lower := strip (lower code_snippet) in
  if any_in python_patterns code_lower then "python"
  else if any_in javascript_patterns code_lower then "javascript"
  else if any_in java_patterns code_lower then "java"
  else if any_in cpp_patterns code_lower then "cpp"
  else if any_in go_patterns code_lower then "go"
  else "python".

Definition harsh_indicators : list string :=
  ["bad"; "terrible"; "awful"; "stupid"; "dumb"; "wrong"; "never";
   "always"; "completely"; "totally"; "absolutely"; "obviously"].

Definition neutral_indicators : list string :=
  ["could"; "might"; "consider"; "suggest"; "perhaps"; "maybe";
   "improvement"; "better"; "optimize"].

Definition harsh_count (comment : string) : nat :=
  count_in harsh_indicators (lower comment).

Definition neutral_count (comment : string) : nat :=
  count_in neutral_indicators (lower comment).

Definition _assess_comment_severity (comment : string) : string :=
  if neutral_count comment <? harsh_count comment then "harsh"
  else if harsh_count comment <? neutral_count comment then "neutral"
  else "moderate".

(** [resources.append(x)] under the guard [b] *)
Definition append_if (b : bool) (x : string) (resources : list string) : list string :=
  if b then resources ++ [x] else resources.

Definition _get_relevant_resources
  (comment code_snippet : string) (language : option string) : list string :=
  let language :=
    match language with
    | None => _detect_language code_snippet
    | Some l => l
    end in
  let comment_lower := lower comment in
  let code_lower := lower code_snippet in
  let lang_config := dict_get language python_config language_configs in
  let lang_resources := resources lang_config in
  let get := fun key => dict_get key "" lang_resources in
  let has := fun w => contains w comment_lower in
  let resources := [] in
  let resources := append_if (has "variable" || has "naming") (get "naming") resources in
  let resources :=
    append_if (has "efficient" || has "performance" || has "loop") (get "performance") resources in
  let resources := append_if (has "style" || has "formatting") (get "style") resources in
  let resources :=
    if String.eqb language "python" then
      let resources :=
        append_if (has "comprehension" || has "list comprehension") (get "comprehension") resources in
      let resources :=
        append_if (contains "== true" code_lower || contains "== false" code_lower)
                  (get "style") resources in
      append_if (has "function" || has "docstring") (get "docstrings") resources
    else if String.eqb language "javascript" then
      let resources := append_if (has "async" || has "promise") (get "async") resources in
      append_if (has "es6" || has "arrow" || has "const") (get "es6") resources
    else if String.eqb language "java" then
      append_if (has "thread" || has "concurrent") (get "concurrency") resources
    else if String.eqb language "cpp" then
      append_if (has "modern" || has "c++11" || has "c++14") (get "modern") resources
    else if String.eqb language "go" then
      append_if (has "format" || has "gofmt") (get "fmt") resources
    else resources in
  filter (fun r => negb (String.eqb r "")) resources.

(** ** Quality scoring *)

(** [max(a, b)] and [min(a, b)] of Python: the first argument is kept
    unless the second is strictly larger (smaller). *)
Definition py_max (a b : Q) : Q := if Qlt_le_dec a b then b else a.
Definition py_min (a b : Q) : Q := if Qlt_le_dec b a then b else a.

Definition clamp (x : Q) : Q := py_max 0%Q (py_min 10%Q x).

Definition severity_weights : dict Q :=
  [("harsh", (-2)%Q); ("moderate", (-1)%Q); ("neutral", (-1 # 2)%Q)].

(** The four running totals of the scoring loop. *)
Record Dimensions : Type := mkDims {
  dim_readability : Q;
  dim_performance : Q;
  dim_maintainability : Q;
  dim_best_practices : Q
}.

Definition baseline : Dimensions := mkDims 7%Q 7%Q 7%Q 7%Q.

Definition add_if (b : bool) (x weight : Q) : Q :=
  if b then (x + weight)%Q else x.

(** One iteration of the loop over the comments. *)
Definition score_comment (d : Dimensions) (comment : string) : Dimensions :=
  let severity := _assess_comment_severity comment in
  let weight := dict_get severity (-1 # 2)%Q severity_weights in
  let comment_lower := lower comment in
  {| dim_readability :=
       add_if (any_in ["naming"; "variable"; "unclear"] comment_lower)
              (dim_readability d) weight;
     dim_performance :=
       add_if (any_in ["efficient"; "performance"; "slow"; "optimize"] comment_lower)
              (dim_performance d) weight;
     dim_maintainability :=
       add_if (any_in ["maintainability"; "complex"; "structure"] comment_lower)
              (dim_maintainability d) weight;
     dim_best_practices :=
       add_if (any_in ["convention"; "style"; "best practice"; "standard"] comment_lower)
              (dim_best_practices d) weight |}.

Definition _calculate_code_quality_score
  (code_snippet : string) (comments : list string) (language : string) : CodeQualityScore :=
  let d := fold_left score_comment comments baseline in
  let readability := clamp (dim_readability d) in
  let performance := clamp (dim_performance d) in
  let maintainability := clamp (dim_maintainability d) in
  let best_practices := clamp (dim_best_practices d) in
  let overall_score :=
    ((readability + performance + maintainability + best_practices) / 4)%Q in
  let improvement_potential := (10 - overall_score)%Q in
  {| overall_score := overall_score;
     readability := readability;
     performance := performance;
     maintainability := maintainability;
     best_practices := best_practices;
     improvement_potential := improvement_potential |}.

(** ** Batch severity *)

(** [l.count(x)] *)
Definition list_count (l : list string) (x : string) : nat :=
  count_occ string_dec l x.

(** [l.index(x)], with [len(l)] where Python raises. *)
Fixpoint list_index (x : string) (l : list string) : nat :=
  match l with
  | [] => 0
  | y :: l' => if String.eqb x y then 0 else S (list_index x l')
  end.

(** The scan of [max(iterable, key=key)]: the item held is replaced only by
    an item whose key is strictly greater. *)
Fixpoint max_scan {A : Type} (key : A -> nat) (best : A) (l : list A) : A :=
  match l with
  | [] => best
  | x :: l' => max_scan key (if key best <? key x then x else best) l'
  end.

Definition py_max_key {A : Type} (key : A -> nat) (l : list A) : result A :=
  match l with
  | [] => Raise (mkExn ValueError "max() arg is an empty sequence")
  | x :: l' => Ok (max_scan key x l')
  end.

Definition comment_severities (comments : list string) : list string :=
  map _assess_comment_severity comments.

(** [max(severities, key=severities.count)] *)
Definition overall_severity (comments : list string) : result string :=
  let severities := comment_severities comments in
  py_max_key (list_count severities) severities.

(** ** Resource section *)

(** [list(dict.fromkeys(l))]: the keys in insertion order. *)
Definition dict_fromkeys (l : list string) : list string :=
  fold_left
    (fun keys k => if existsb (String.eqb k) keys then keys else keys ++ [k])
    l [].

Definition LF : string := String (ascii_of_nat 10) EmptyString.

Definition resource_lines (unique_resources : list string) : string :=
  fold_left (fun section resource => section ++ "- " ++ resource ++ LF)%string
            unique_resources
            (LF ++ LF ++ "## Additional Resources" ++ LF ++ LF
             ++ "For further learning, consider reviewing these resources:"
             ++ LF ++ LF)%string.

Definition collect_resources
  (code_snippet : string) (comments : list string) (language : string) : list string :=
  flat_map (fun comment => _get_relevant_resources comment code_snippet (Some language))
           comments.

Definition _enhance_with_resources
  (review_content code_snippet : string) (comments : list string)
  (language : option string) : string :=
  let language :=
    match language with
    | None => _detect_language code_snippet
    | Some l => l
    end in
  let all_resources := collect_resources code_snippet comments language in
  let unique_resources := dict_fromkeys all_resources in
  match unique_resources with
  | [] => review_content
  | _ => (review_content ++ resource_lines unique_resources)%string
  end.

(** ** Structured input *)

(** The values [json.loads] builds. *)
#[local] Unset Elimination Schemes.
Inductive json : Type :=
| JNull
| JBool (b : bool)
| JInt (n : Z)
| JFloat (x : Q)
| JStr (s : string)
| JList (l : list json)
| JDict (d : list (string * json)).
#[local] Set Elimination Schemes.

Definition type_name (v : json) : string :=
  match v with
  | JNull => "NoneType"
  | JBool _ => "bool"
  | JInt _ => "int"
  | JFloat _ => "float"
  | JStr _ => "str"
  | JList _ => "list"
  | JDict _ => "dict"
  end.

(** [v.lower()] is the first use the pipeline makes of the code snippet and
    of each comment; on anything but a [str] it raises [AttributeError]. *)
Definition str_lower_receiver (v : json) : result string :=
  match v with
  | JStr s => Ok s
  | _ => Raise (mkExn AttributeError
                  ("'" ++ type_name v ++ "' object has no attribute 'lower'")%string)
  end.

(** The comments as the scoring loop meets them: it stops at the first one
    that is not a [str]. *)
Fixpoint str_lower_receivers (l : list json) : result (list string) :=
  match l with
  | [] => Ok []
  | v :: l' =>
      s <- str_lower_receiver v ;;
      rest <- str_lower_receivers l' ;;
      Ok (s :: rest)
  end.

(** The validation that opens [generate_review_report]. *)
Definition validate_input (input_data : dict json) : result (json * list json) :=
  match dict_lookup "code_snippet" input_data,
        dict_lookup "review_comments" input_data with
  | Some code_snippet, Some comments =>
      match comments with
      | JList (c :: cs) => Ok (code_snippet, c :: cs)
      | _ => Raise (mkExn ValueError "'review_comments' must be a non-empty list")
      end
  | _, _ =>
      Raise (mkExn ValueError
               "Input must contain 'code_snippet' and 'review_comments' keys")
  end.

(** [try: ... except Exception as e: raise Exception(prefix + str(e))] *)
Definition reraise {A : Type} (prefix : string) (r : result A) : result A :=
  match r with
  | Ok a => Ok a
  | Raise e => Raise (mkExn PyException (prefix ++ exn_msg e)%string)
  end.

Definition severity_adjustments : dict string :=
  [("harsh", " Pay special attention to softening harsh language and being extra encouraging. The original feedback may have been blunt or discouraging, so focus on building the developer's confidence while still conveying the technical improvement needed.");
   ("moderate", " Maintain a balanced, professional tone while being supportive and educational.");
   ("neutral", " The original feedback was already fairly neutral, so focus on making it more educational and adding the 'why' behind suggestions.")].

Section Orchestrator.

(** [persona] is [self.persona].  The long fixed texts are taken as they
    are: [persona_prompts] is the table of [_get_persona_prompt],
    [base_prompt persona_context language] the f-string of
    [_create_system_prompt], [user_prompt language code_snippet comments]
    that of [_generate_empathetic_review], and
    [report_header language persona overall_score] the header line of the
    report.  [client system_prompt user_prompt] is the chat-completion call
    down to [message.content]: the content, or the exception raised. *)
Variable persona : ReviewerPersona.
Variable persona_prompts : ReviewerPersona -> string.
Variable base_prompt : string -> string -> string.
Variable user_prompt : string -> string -> list string -> string.
Variable report_header : string -> ReviewerPersona -> Q -> string.
Variable client : string -> string -> result string.
(** [round(x, 1)] *)
Variable round1 : Q -> Q.

Definition _get_persona_prompt : string := persona_prompts persona.

Definition _create_system_prompt (severity language : string) : string :=
  let persona_context := _get_persona_prompt in
  (base_prompt persona_context language
   ++ dict_get severity "" severity_adjustments)%string.

Definition _generate_empathetic_review
  (code_snippet : string) (comments : list string) (language : option string)
  : result string :=
  let language :=
    match language with
    | None => _detect_language code_snippet
    | Some l => l
    end in
  overall_severity <- overall_severity comments ;;
  let system_prompt := _create_system_prompt overall_severity language in
  let user_prompt := user_prompt language code_snippet comments in
  reraise "Error generating review: "
    (content <- client system_prompt user_prompt ;; Ok (strip content)).

Definition generate_review_report (input_data : dict json)
  : result (string * CodeQualityScore) :=
  reraise "Failed to generate review report: "
    (validated <- validate_input input_data ;;
     let '(code_snippet, comments) := validated in
     code_snippet <- str_lower_receiver code_snippet ;;
     let language := _detect_language code_snippet in
     comments <- str_lower_receivers comments ;;
     let quality_score :=
       _calculate_code_quality_score code_snippet comments language in
     review_content <-
       _generate_empathetic_review code_snippet comments (Some language) ;;
     let enhanced_review :=
       _enhance_with_resources review_content code_snippet comments (Some language) in
     let header := report_header language persona (overall_score quality_score) in
     let final_report := (header ++ enhanced_review)%string in
     Ok (final_report, quality_score)).

Definition to_dict (q : CodeQualityScore) : dict Q :=
  [("overall_score", round1 (overall_score q));
   ("readability", round1 (readability q));
   ("performance", round1 (performance q));
   ("maintainability", round1 (maintainability q));
   ("best_practices", round1 (best_practices q));
   ("improvement_potential", round1 (improvement_potential q))].

Record QualityAnalysis : Type := mkAnalysis {
  language : string;
  quality_metrics : dict Q;
  total_issues : nat;
  severity_breakdown : dict nat
}.

Definition count_severity (comments : list string) (severity : string) : nat :=
  length (filter (fun c => String.eqb (_assess_comment_severity c) severity) comments).

Definition analyze_code_quality (code_snippet : string) (comments : list string)
  : QualityAnalysis :=
  let language := _detect_language code_snippet in
  let quality_score := _calculate_code_quality_score code_snippet comments language in
  {| language := language;
     quality_metrics := to_dict quality_score;
     total_issues := length comments;
     severity_breakdown :=
       map (fun severity => (severity, count_severity comments severity))
           ["harsh"; "moderate"; "neutral"] |}.

End Orchestrator.

(** ** Example requests of the dashboard ([app.py]) *)

Definition python_example : dict json :=
  [("code_snippet", JStr
"def get_active_users(users):
    results = []
    for u in users:
        if u.is_active == True and u.profile_complete == True:
            results.append(u)
    return results");
   ("review_comments", JList
     [JStr "This is inefficient. Don't loop twice conceptually.";
      JStr "Variable 'u' is a bad name.";
      JStr "Boolean comparison '== True' is redundant."])].

Definition javascript_example : dict json :=
  [("code_snippet", JStr
"function getUserData(users) {
    var result = [];
    for (var i = 0; i < users.length; i++) {
        if (users[i].active == true && users[i].verified == true) {
            result.push(users[i]);
        }
    }
    return result;
}");
   ("review_comments", JList
     [JStr "Use const/let instead of var for better scoping.";
      JStr "This loop is inefficient, consider using filter().";
      JStr "Boolean comparison with == true is redundant.";
      JStr "Function name could be more descriptive."])].

Definition java_example : dict json :=
  [("code_snippet", JStr
"public List<User> getActiveUsers(List<User> users) {
    List<User> result = new ArrayList<>();
    for (int i = 0; i < users.size(); i++) {
        User u = users.get(i);
        if (u.isActive() == true && u.isVerified() == true) {
            result.add(u);
        }
    }
    return result;
}");
   ("review_comments", JList
     [JStr "Enhanced for-loop would be more readable.";
      JStr "Boolean comparison with == true is unnecessary.";
      JStr "Variable name 'u' is not descriptive.";
      JStr "Consider using streams for functional approach."])].

Definition examples : dict (dict json) :=
  [("python", python_example);
   ("javascript", javascript_example);
   ("java", java_example)].

(** [examples.get(language, examples["python"])] *)
Definition load_example_data (language : string) : dict json :=
  dict_get language python_example examples.

(** * Reference definitions

    What the properties below compare the reviewer with. *)

(** The detection table in its priority order. *)
Definition language_priority : list (string * list string) :=
  [("python", python_patterns);
   ("javascript", javascript_patterns);
   ("java", java_patterns);
   ("cpp", cpp_patterns);
   ("go", go_patterns)].

(** The first language of the table one of whose patterns occurs in [text];
    python when there is none. *)
Fixpoint first_match (table : list (string * list string)) (text : string) : string :=
  match table with
  | [] => "python"
  | (language, patterns) :: table' =>
      if any_in patterns text then language else first_match table' text
  end.

(** Detection as the specification words it: over the lower-cased snippet. *)
Definition detect_on_lowercase (code_snippet : string) : string :=
  first_match language_priority (lower code_snippet).

(** The keys [dict.fromkeys] adds while it scans [l], given those it
    already holds. *)
Fixpoint first_seen (keys l : list string) : list string :=
  match l with
  | [] => []
  | k :: l' =>
      if existsb (String.eqb k) keys then first_seen keys l'
      else k :: first_seen (keys ++ [k]) l'
  end.

Definition is_str (v : json) : bool :=
  match v with JStr _ => true | _ => false end.

(** A request as the specification words it: a non-empty [code_snippet]
    string and a non-empty [review_comments] list of strings. *)
Definition wellformed_request (input_data : dict json) : bool :=
  match dict_lookup "code_snippet" input_data,
        dict_lookup "review_comments" input_data with
  | Some (JStr code_snippet), Some (JList (c :: cs)) =>
      negb (String.eqb code_snippet "") && forallb is_str (c :: cs)
  | _, _ => false
  end.

(** The three comments of scenario A. *)
Definition scenario_a_comments : list string :=
  ["This is inefficient.";
   "Variable 'u' is a bad name.";
   "Boolean comparison '== True' is redundant."].

(** The trigger words of the four dimensions, as the scoring loop lists
    them. *)
Definition dimension_triggers : list string :=
  ["naming"; "variable"; "unclear"]
  ++ ["efficient"; "performance"; "slow"; "optimize"]
  ++ ["maintainability"; "complex"; "structure"]
  ++ ["convention"; "style"; "best practice"; "standard"].

(** Running totals that are numerically equal. *)
Definition dims_eq (d d' : Dimensions) : Prop :=
  (dim_readability d == dim_readability d')%Q
  /\ (dim_performance d == dim_performance d')%Q
  /\ (dim_maintainability d == dim_maintainability d')%Q
  /\ (dim_best_practices d == dim_best_practices d')%Q.

(** Quality scores that are numerically equal. *)
Definition score_eq (q q' : CodeQualityScore) : Prop :=
  (overall_score q == overall_score q')%Q
  /\ (readability q == readability q')%Q
  /\ (performance q == performance q')%Q
  /\ (maintainability q == maintainability q')%Q
  /\ (best_practices q == best_practices q')%Q
  /\ (improvement_potential q == improvement_potential q')%Q.

(** The language a function works with when its [language] argument may be
    [None]. *)
Definition resolved_language (code_snippet : string) (language : option string) : string :=
  match language with
  | None => _detect_language code_snippet
  | Some l => l
  end.

(** A request, and stand-ins for the service and the texts, to run the
    orchestrator on. *)
Definition sample_code : string := "def f(u): return u".

Definition sample_comments : list string := ["Variable 'u' is a bad name."].

Definition sample_request : dict json :=
  [("code_snippet", JStr sample_code);
   ("review_comments", JList (map JStr sample_comments))].

Definition answering_service : string -> string -> result string :=
  fun _ _ => Ok "  Well done.  ".

Definition failing_service : string -> string -> result string :=
  fun _ _ => Raise (mkExn PyException "Connection error.").

Definition plain_header : string -> ReviewerPersona -> Q -> string :=
  fun language persona _ => (language ++ " / " ++ persona_value persona ++ LF)%string.

(** The number of places at which [needle] occurs in [hay]. *)
Fixpoint occurrences (needle hay : string) : nat :=
  (if prefix needle hay then 1 else 0)
  + match hay with
    | EmptyString => 0
    | String _ hay' => occurrences needle hay'
    end.

(** The occurrences of all the [words] in [text], added up. *)
Definition occurrence_count (words : list string) (text : string) : nat :=
  list_sum (map (fun w => occurrences w text) words).

(** Severity as the specification words it: the occurrences of each
    indicator are counted. *)
Definition severity_by_occurrences (comment : string) : string :=
  let comment_lower := lower comment in
  let harsh := occurrence_count harsh_indicators comment_lower in
  let neutral := occurrence_count neutral_indicators comment_lower in
  if neutral <? harsh then "harsh"
  else if harsh <? neutral then "neutral"
  else "moderate".

(** * Properties *)

(** ** Substring containment *)

Lemma prefix_append (needle hay : string) :
  prefix needle hay = true <-> exists rest, hay = (needle ++ rest)%string.
Proof.
  revert hay; induction needle as [|c needle IH]; intros hay; simpl.
  - split; [intros _; now exists hay | intros _; now destruct hay].
  - destruct hay as [|c' hay]; simpl.
    + split; [discriminate | intros [rest H]; discriminate].
    + destruct (Ascii.ascii_dec c c') as [->|Hne].
      * rewrite IH; split; intros [rest H]; exists rest.
        -- now rewrite H.
        -- now injection H.
      * split; [discriminate | intros [rest H]; injection H; congruence].
Qed.

(** [contains needle hay] holds exactly when [needle] occurs in [hay]. *)
Lemma contains_occurs (needle hay : string) :
  contains needle hay = true
  <-> exists before after, hay = (before ++ needle ++ after)%string.
Proof.
  induction hay as [|c hay IH]; cbn [contains].
  - rewrite orb_false_r, prefix_append; split.
    + intros [rest H]; now exists EmptyString, rest.
    + intros [[|b before] [after H]]; [now exists after | discriminate].
  - rewrite orb_true_iff, prefix_append, IH; split.
    + intros [[rest H] | [before [after H]]].
      * now exists EmptyString, rest.
      * exists (String c before), after; simpl; now rewrite H.
    + intros [[|b before] [after H]].
      * left; now exists after.
      * right; exists before, after; simpl in H; now injection H.
Qed.

Lemma contains_empty (hay : string) : contains EmptyString hay = true.
Proof. destruct hay; reflexivity. Qed.

(** ** Language detection *)

Lemma first_match_supported (text : string) :
  In (first_match language_priority text) get_supported_languages.
Proof.
  unfold language_priority, get_supported_languages; simpl.
  repeat match goal with
         | |- context [if ?b then _ else _] => destruct b
         end; auto 10.
Qed.

(** A pattern set matches when one of its patterns occurs in the text. *)
Lemma any_in_occurs (words : list string) (text : string) :
  any_in words text = true
  <-> exists w before after,
        In w words /\ text = (before ++ w ++ after)%string.
Proof.
  unfold any_in; rewrite existsb_exists; split.
  - intros (w & Hw & Hc); apply contains_occurs in Hc.
    destruct Hc as (before & after & Heq); now exists w, before, after.
  - intros (w & before & after & Hw & Heq); exists w; split; [assumption|].
    apply contains_occurs; now exists before, after.
Qed.

(** [first_match] returns the language of the first entry whose set
    matches, every entry before it failing; or python when all fail. *)
Lemma first_match_split (table : list (string * list string)) (text : string) :
  (exists before patterns after,
     table = before ++ (first_match table text, patterns) :: after
     /\ any_in patterns text = true
     /\ Forall (fun entry => any_in (snd entry) text = false) before)
  \/ (Forall (fun entry => any_in (snd entry) text = false) table
      /\ first_match table text = "python").
Proof.
  induction table as [|[language patterns] table IH]; cbn [first_match].
  - right; split; [constructor | reflexivity].
  - destruct (any_in patterns text) eqn:Hany.
    + left; exists [], patterns, table; repeat split; [assumption | constructor].
    + destruct IH as [(before & patterns' & after & Heq & Hmatch & Hnone) | [Hnone Hpy]].
      * left; exists ((language, patterns) :: before), patterns', after.
        repeat split; [simpl; now rewrite <- Heq | assumption | now constructor].
      * right; split; [now constructor | assumption].
Qed.

(** ** Severity *)

Lemma assess_comment_severity_cases (comment : string) :
  In (_assess_comment_severity comment) ["harsh"; "moderate"; "neutral"].
Proof.
  unfold _assess_comment_severity.
  destruct (_ <? _); [now left|].
  destruct (_ <? _); [now right; right; left | now right; left].
Qed.

(** ** Score arithmetic *)

Lemma clamp_range (x : Q) : (0 <= clamp x)%Q /\ (clamp x <= 10)%Q.
Proof.
  unfold clamp, py_max, py_min.
  destruct (Qlt_le_dec x 10); destruct (Qlt_le_dec 0 _); split; lra.
Qed.

Lemma clamp_below (x bound : Q) :
  (x <= bound)%Q -> (0 <= bound)%Q -> (clamp x <= bound)%Q.
Proof.
  intros Hx Hb; unfold clamp, py_max, py_min.
  destruct (Qlt_le_dec x 10); destruct (Qlt_le_dec 0 _); lra.
Qed.

(** Every penalty weight, the default of the lookup included, is negative. *)
Lemma severity_weight_negative (severity : string) :
  (dict_get severity (-1 # 2) severity_weights < 0)%Q.
Proof.
  unfold dict_get, severity_weights; simpl.
  repeat match goal with
         | |- context [if ?b then _ else _] => destruct b
         end; reflexivity.
Qed.

Lemma add_if_below (b : bool) (x weight : Q) :
  (weight < 0)%Q -> (add_if b x weight <= x)%Q.
Proof. intros H; destruct b; simpl; lra. Qed.

(** A dimension never grows while the comments are scanned. *)
Lemma score_loop_decreases (comments : list string) (d : Dimensions) :
  let d' := fold_left score_comment comments d in
  (dim_readability d' <= dim_readability d)%Q
  /\ (dim_performance d' <= dim_performance d)%Q
  /\ (dim_maintainability d' <= dim_maintainability d)%Q
  /\ (dim_best_practices d' <= dim_best_practices d)%Q.
Proof.
  revert d; induction comments as [|c comments IH]; intros d; simpl.
  - repeat split; lra.
  - destruct (IH (score_comment d c)) as (Hr & Hp & Hm & Hb).
    pose proof (severity_weight_negative (_assess_comment_severity c)) as Hw.
    unfold score_comment in Hr, Hp, Hm, Hb; simpl in Hr, Hp, Hm, Hb.
    repeat split;
      (eapply Qle_trans; [eassumption | now apply add_if_below]).
Qed.

(** ** The scan of [max] *)

Section MaxScan.

Context {A : Type} (key : A -> nat).

(** The item [max] returns splits the sequence: everything before it has
    a strictly smaller key, nothing after it has a greater one. *)
Lemma max_scan_split (l : list A) (best : A) :
  exists before after,
    best :: l = before ++ max_scan key best l :: after
    /\ (forall x, In x before -> key x < key (max_scan key best l))
    /\ (forall x, In x after -> key x <= key (max_scan key best l)).
Proof.
  revert best; induction l as [|x l IH]; intros best; simpl.
  - exists [], []; repeat split; simpl; intros; contradiction.
  - destruct (Nat.ltb_spec (key best) (key x)) as [Hlt|Hge].
    + destruct (IH x) as (before & after & Heq & Hb & Ha).
      set (m := max_scan key x l) in *.
      assert (Hx : key x <= key m).
      { assert (Hin : In x (before ++ m :: after)) by (rewrite <- Heq; now left).
        apply in_app_or in Hin; destruct Hin as [Hin|[Hm|Hin]];
          [apply Nat.lt_le_incl; auto | rewrite <- Hm; lia | auto]. }
      exists (best :: before), after; repeat split.
      * simpl; now rewrite <- Heq.
      * intros y [<-|Hy]; [lia | auto].
      * assumption.
    + destruct (IH best) as (before & after & Heq & Hb & Ha).
      set (m := max_scan key best l) in *.
      destruct before as [|b before]; simpl in Heq; injection Heq as Hhead Htail.
      * exists [], (x :: after); repeat split.
        -- simpl; now rewrite Hhead, Htail.
        -- intros y [].
        -- intros y [<-|Hy]; [rewrite <- Hhead; lia | auto].
      * subst b; exists (best :: x :: before), after; repeat split.
        -- simpl; now rewrite Htail.
        -- assert (Hbest : key best < key m) by (apply Hb; now left).
           intros y [<-|[<-|Hy]]; [assumption | lia | apply Hb; now right].
        -- assumption.
Qed.

End MaxScan.

Lemma list_index_app_notin (x : string) (l1 l2 : list string) :
  ~ In x l1 -> list_index x (l1 ++ l2) = length l1 + list_index x l2.
Proof.
  induction l1 as [|y l1 IH]; simpl; intros Hnot; [reflexivity|].
  destruct (String.eqb_spec x y) as [->|Hne].
  - exfalso; apply Hnot; now left.
  - rewrite IH; [reflexivity | intros H; apply Hnot; now right].
Qed.

Lemma list_index_head (x : string) (l : list string) : list_index x (x :: l) = 0.
Proof. simpl; now rewrite String.eqb_refl. Qed.

(** [py_max_key] over the counts of a non-empty list: the mode whose first
    occurrence is the earliest. *)
Lemma max_count_first_mode (l : list string) (s : string) :
  py_max_key (list_count l) l = Ok s ->
  In s l
  /\ (forall t, list_count l t <= list_count l s)
  /\ (forall t, In t l -> list_count l t = list_count l s ->
                list_index s l <= list_index t l).
Proof.
  destruct l as [|x l]; cbn [py_max_key]; [discriminate|].
  intros H; injection H as <-.
  destruct (max_scan_split (list_count (x :: l)) l x)
    as (before & after & Heq & Hb & Ha).
  set (s := max_scan (list_count (x :: l)) x l) in *.
  assert (Hin : forall t, In t (x :: l) -> list_count (x :: l) t <= list_count (x :: l) s).
  { intros t Ht; rewrite Heq in Ht; apply in_app_or in Ht.
    destruct Ht as [Ht|[Hs|Ht]];
      [apply Nat.lt_le_incl; auto | rewrite <- Hs; lia | auto]. }
  assert (Hnot : forall t, list_count (x :: l) t = list_count (x :: l) s -> ~ In t before).
  { intros t Ht Hbefore; apply Hb in Hbefore; lia. }
  split; [|split].
  - rewrite Heq; apply in_or_app; right; now left.
  - intros t; destruct (in_dec string_dec t (x :: l)) as [Ht|Ht]; [auto|].
    unfold list_count at 1.
    apply (count_occ_not_In string_dec) in Ht; rewrite Ht; lia.
  - intros t Ht Hcount.
    rewrite Heq, !list_index_app_notin by auto.
    rewrite list_index_head; lia.
Qed.

(** ** [dict.fromkeys] *)

Lemma existsb_eqb_In (k : string) (keys : list string) :
  existsb (String.eqb k) keys = true <-> In k keys.
Proof.
  rewrite existsb_exists; split.
  - intros (y & Hy & Heq); apply String.eqb_eq in Heq; now subst.
  - intros H; exists k; split; [assumption | apply String.eqb_refl].
Qed.

Lemma existsb_eqb_notin (k : string) (keys : list string) :
  existsb (String.eqb k) keys = false <-> ~ In k keys.
Proof.
  rewrite <- existsb_eqb_In; destruct (existsb _ _); split; congruence.
Qed.

Lemma fromkeys_scan (l keys : list string) :
  fold_left
    (fun keys k => if existsb (String.eqb k) keys then keys else keys ++ [k])
    l keys
  = keys ++ first_seen keys l.
Proof.
  revert keys; induction l as [|k l IH]; intros keys; simpl.
  - now rewrite app_nil_r.
  - destruct (existsb (String.eqb k) keys).
    + apply IH.
    + rewrite IH, <- app_assoc; reflexivity.
Qed.

Lemma dict_fromkeys_first_seen (l : list string) :
  dict_fromkeys l = first_seen [] l.
Proof. unfold dict_fromkeys; now rewrite fromkeys_scan. Qed.

Lemma first_seen_In (l keys : list string) (x : string) :
  In x (first_seen keys l) <-> In x l /\ ~ In x keys.
Proof.
  revert keys; induction l as [|k l IH]; intros keys; simpl.
  - tauto.
  - destruct (existsb (String.eqb k) keys) eqn:Hk.
    + apply existsb_eqb_In in Hk; rewrite IH.
      split; [tauto | intros [[<-|H] Hn]; [contradiction | tauto]].
    + apply existsb_eqb_notin in Hk; simpl; rewrite IH, in_app_iff; simpl.
      destruct (string_dec k x) as [->|Hne]; [tauto|].
      split; [tauto | intros [[H|H] Hn]; [contradiction | tauto]].
Qed.

Lemma first_seen_NoDup (l keys : list string) : NoDup (first_seen keys l).
Proof.
  revert keys; induction l as [|k l IH]; intros keys; simpl.
  - constructor.
  - destruct (existsb (String.eqb k) keys); [apply IH|].
    constructor; [|apply IH].
    rewrite first_seen_In, in_app_iff; simpl; tauto.
Qed.

(** Two keys come out in the order of their first occurrences. *)
Lemma first_seen_order (l keys : list string) (x y : string) :
  In x l -> In y l -> ~ In x keys -> ~ In y keys ->
  (list_index x (first_seen keys l) < list_index y (first_seen keys l)
   <-> list_index x l < list_index y l).
Proof.
  revert keys; induction l as [|k l IH]; intros keys Hx Hy Hnx Hny; [contradiction|].
  simpl in Hx, Hy; cbn [first_seen].
  destruct (existsb (String.eqb k) keys) eqn:Hk.
  - apply existsb_eqb_In in Hk.
    assert (x <> k) by congruence; assert (y <> k) by congruence.
    cbn [list_index].
    destruct (String.eqb_spec x k); [contradiction|].
    destruct (String.eqb_spec y k); [contradiction|].
    rewrite <- Nat.succ_lt_mono; apply IH; try assumption.
    + destruct Hx; [congruence | assumption].
    + destruct Hy; [congruence | assumption].
  - cbn [list_index].
    destruct (String.eqb_spec x k) as [->|Hxk];
      destruct (String.eqb_spec y k) as [->|Hyk]; try lia.
    rewrite <- !Nat.succ_lt_mono; apply IH.
    + destruct Hx; [congruence | assumption].
    + destruct Hy; [congruence | assumption].
    + rewrite in_app_iff; simpl; intros [?|[?|[]]]; [contradiction | congruence].
    + rewrite in_app_iff; simpl; intros [?|[?|[]]]; [contradiction | congruence].
Qed.

(** * The reviewer's properties *)

(** C1. For every code snippet, comment list and language, each of the six
    fields of the quality score lies in [0, 10], the overall score is the
    unweighted mean of the four clamped dimensions, and the improvement
    potential and the overall score add up to 10. *)
Theorem quality_score_invariants
  (code_snippet : string) (comments : list string) (language : string) :
  let q := _calculate_code_quality_score code_snippet comments language in
  let d := fold_left score_comment comments baseline in
  (0 <= overall_score q <= 10)%Q
  /\ (0 <= readability q <= 10)%Q
  /\ (0 <= performance q <= 10)%Q
  /\ (0 <= maintainability q <= 10)%Q
  /\ (0 <= best_practices q <= 10)%Q
  /\ (0 <= improvement_potential q <= 10)%Q
  /\ readability q = clamp (dim_readability d)
  /\ performance q = clamp (dim_performance d)
  /\ maintainability q = clamp (dim_maintainability d)
  /\ best_practices q = clamp (dim_best_practices d)
  /\ (overall_score q ==
      (readability q + performance q + maintainability q + best_practices q) / 4)%Q
  /\ (improvement_potential q + overall_score q == 10)%Q.
Proof.
  intros q d; subst q; unfold _calculate_code_quality_score; fold d.
  cbn [overall_score readability performance maintainability best_practices
       improvement_potential].
  pose proof (clamp_range (dim_readability d)) as [? ?].
  pose proof (clamp_range (dim_performance d)) as [? ?].
  pose proof (clamp_range (dim_maintainability d)) as [? ?].
  pose proof (clamp_range (dim_best_practices d)) as [? ?].
  unfold Qdiv; change (/ 4)%Q with (1 # 4)%Q.
  repeat split; try reflexivity; lra.
Qed.

(** C9. For every code snippet and comment list, no dimension of the
    quality score exceeds the 7.0 baseline: each of the four dimensions and
    the overall score are at most 7.0, and the improvement potential is at
    least 3.0. *)
Theorem quality_score_at_most_baseline
  (code_snippet : string) (comments : list string) (language : string) :
  let q := _calculate_code_quality_score code_snippet comments language in
  (readability q <= 7)%Q
  /\ (performance q <= 7)%Q
  /\ (maintainability q <= 7)%Q
  /\ (best_practices q <= 7)%Q
  /\ (overall_score q <= 7)%Q
  /\ (3 <= improvement_potential q)%Q.
Proof.
  intros q; subst q; unfold _calculate_code_quality_score.
  destruct (score_loop_decreases comments baseline) as (Hr & Hp & Hm & Hb).
  set (d := fold_left score_comment comments baseline) in *.
  cbn [dim_readability dim_performance dim_maintainability dim_best_practices
       baseline] in Hr, Hp, Hm, Hb.
  cbn [overall_score readability performance maintainability best_practices
       improvement_potential].
  unfold Qdiv; change (/ 4)%Q with (1 # 4)%Q.
  assert (clamp (dim_readability d) <= 7)%Q by (apply clamp_below; lra).
  assert (clamp (dim_performance d) <= 7)%Q by (apply clamp_below; lra).
  assert (clamp (dim_maintainability d) <= 7)%Q by (apply clamp_below; lra).
  assert (clamp (dim_best_practices d) <= 7)%Q by (apply clamp_below; lra).
  repeat split; lra.
Qed.

(** C2, as the code has it.  Language detection is a total function of the
    text: it lower-cases the snippet and strips its leading and trailing
    whitespace, tests the pattern sets in the order python, javascript,
    java, cpp, go on that text, returns the first language one of whose
    patterns occurs in it, and python when none does; the result is always
    one of the five supported languages. *)
Theorem detect_language_first_match (code_snippet : string) :
  let text := strip (lower code_snippet) in
  _detect_language code_snippet = first_match language_priority text
  /\ ((exists before patterns after,
         language_priority
         = before ++ (_detect_language code_snippet, patterns) :: after
         /\ any_in patterns text = true
         /\ Forall (fun entry => any_in (snd entry) text = false) before)
      \/ (Forall (fun entry => any_in (snd entry) text = false) language_priority
          /\ _detect_language code_snippet = "python"))
  /\ In (_detect_language code_snippet) get_supported_languages
  /\ _detect_language "" = "python".
Proof.
  intros text.
  assert (H : _detect_language code_snippet = first_match language_priority text)
    by reflexivity.
  split; [exact H|split; [|split]]; [| |reflexivity].
  - rewrite H; apply first_match_split.
  - rewrite H; apply first_match_supported.
Qed.

(** C2 fails as worded: on the snippet "const " the lower-cased text holds
    the javascript pattern "const " and no python pattern, yet the detector,
    which strips the text first, finds no pattern at all and falls back to
    python. *)
Lemma detect_language_strips_first :
  lower "const " = "const "
  /\ any_in python_patterns (lower "const ") = false
  /\ any_in javascript_patterns (lower "const ") = true
  /\ detect_on_lowercase "const " = "javascript"
  /\ _detect_language "const " = "python"
  /\ _detect_language "const " <> detect_on_lowercase "const ".
Proof. repeat split; try reflexivity; discriminate. Qed.

Lemma contains_positive_occurrences (needle hay : string) :
  contains needle hay = (0 <? occurrences needle hay).
Proof.
  induction hay as [|c hay IH]; cbn [contains occurrences].
  - destruct (prefix needle EmptyString); reflexivity.
  - destruct (prefix needle (String c hay)); [reflexivity|].
    rewrite IH; reflexivity.
Qed.

Lemma count_in_members_occurring (words : list string) (text : string) :
  count_in words text
  = length (filter (fun w => 0 <? occurrences w text) words).
Proof.
  unfold count_in; f_equal; apply filter_ext.
  intros w; apply contains_positive_occurrences.
Qed.

Lemma count_in_at_most (words : list string) (text : string) :
  count_in words text <= length words.
Proof. unfold count_in; apply filter_length_le. Qed.

(** C3, as the code has it.  Severity assessment is a total function of the
    comment.  It lower-cases the comment and counts the harsh indicators,
    and the neutral ones, that occur in it at least once: each indicator
    counts once however often it occurs, and it occurs when it is a
    substring, whole word or not.  More harsh indicators than neutral ones
    give harsh, more neutral ones give neutral, and equal counts (both zero
    included) give moderate. *)
Theorem assess_comment_severity_rule (comment : string) :
  let text := lower comment in
  harsh_count comment
  = length (filter (fun w => 0 <? occurrences w text) harsh_indicators)
  /\ neutral_count comment
     = length (filter (fun w => 0 <? occurrences w text) neutral_indicators)
  /\ (forall w, 0 < occurrences w text
                <-> exists before after, text = (before ++ w ++ after)%string)
  /\ NoDup harsh_indicators
  /\ NoDup neutral_indicators
  /\ harsh_count comment <= 12
  /\ neutral_count comment <= 9
  /\ _assess_comment_severity comment
     = match Nat.compare (harsh_count comment) (neutral_count comment) with
       | Gt => "harsh"
       | Lt => "neutral"
       | Eq => "moderate"
       end
  /\ In (_assess_comment_severity comment) ["harsh"; "moderate"; "neutral"].
Proof.
  intros text; subst text.
  split; [apply count_in_members_occurring|].
  split; [apply count_in_members_occurring|].
  split.
  { intros w; rewrite <- contains_occurs, contains_positive_occurrences.
    apply iff_sym, Nat.ltb_lt. }
  split.
  { unfold harsh_indicators;
      repeat (constructor; [simpl; intuition discriminate|]); constructor. }
  split.
  { unfold neutral_indicators;
      repeat (constructor; [simpl; intuition discriminate|]); constructor. }
  split; [apply (count_in_at_most harsh_indicators)|].
  split; [apply (count_in_at_most neutral_indicators)|].
  split; [|apply assess_comment_severity_cases].
  unfold _assess_comment_severity.
  destruct (Nat.compare_spec (harsh_count comment) (neutral_count comment)) as [E|L|G].
  - rewrite E, Nat.ltb_irrefl; reflexivity.
  - destruct (Nat.ltb_spec (neutral_count comment) (harsh_count comment)); [lia|].
    destruct (Nat.ltb_spec (harsh_count comment) (neutral_count comment)); [reflexivity|lia].
  - destruct (Nat.ltb_spec (neutral_count comment) (harsh_count comment)); [reflexivity|lia].
Qed.

(** C3 fails as worded: in "Bad, bad, BAD code; could/might work" the harsh
    indicator "bad" occurs three times and the neutral indicators "could"
    and "might" once each.  Counted by occurrences the comment would be
    harsh, three against two; the code counts "bad" once, one against two,
    and returns neutral. *)
Lemma severity_counts_each_indicator_once :
  lower "Bad, bad, BAD code; could/might work"
  = "bad, bad, bad code; could/might work"
  /\ occurrence_count harsh_indicators
       (lower "Bad, bad, BAD code; could/might work") = 3
  /\ occurrence_count neutral_indicators
       (lower "Bad, bad, BAD code; could/might work") = 2
  /\ severity_by_occurrences "Bad, bad, BAD code; could/might work" = "harsh"
  /\ harsh_count "Bad, bad, BAD code; could/might work" = 1
  /\ neutral_count "Bad, bad, BAD code; could/might work" = 2
  /\ _assess_comment_severity "Bad, bad, BAD code; could/might work" = "neutral"
  /\ _assess_comment_severity "Bad, bad, BAD code; could/might work"
     <> severity_by_occurrences "Bad, bad, BAD code; could/might work".
Proof. repeat split; try reflexivity; discriminate. Qed.

(** Containment is not whole-word matching: "maybe" counts inside
    "maybel". *)
Example severity_counts_partial_words :
  neutral_count "maybel" = 1 /\ _assess_comment_severity "maybel" = "neutral".
Proof. split; reflexivity. Qed.

(** C8, as the code has it.  For every code whose lower-cased text, once its
    leading and trailing whitespace is stripped, contains "def ", and the
    three comments of scenario A: the detected language is python, the
    readability is below 7.0 and so is the overall score. *)
Theorem scenario_a_python_below_baseline (code_snippet : string) :
  contains "def " (strip (lower code_snippet)) = true ->
  let q := _calculate_code_quality_score code_snippet scenario_a_comments
             (_detect_language code_snippet) in
  _detect_language code_snippet = "python"
  /\ (readability q < 7)%Q
  /\ (overall_score q < 7)%Q.
Proof.
  intros H q; split.
  - unfold _detect_language, python_patterns, any_in; cbn [existsb].
    now rewrite H.
  - subst q; split; reflexivity.
Qed.

Lemma scenario_a_python_below_baseline_witness :
  let code_snippet := "def get_active_users(users): return users" in
  let q := _calculate_code_quality_score code_snippet scenario_a_comments
             (_detect_language code_snippet) in
  _detect_language code_snippet = "python"
  /\ (readability q < 7)%Q
  /\ (overall_score q < 7)%Q.
Proof.
  exact (scenario_a_python_below_baseline
           "def get_active_users(users): return users" eq_refl).
Defined.

(** C8 fails as worded: "function def " contains "def ", but only up to its
    trailing blank, which the detector strips; the snippet is detected as
    javascript. *)
Lemma scenario_a_trailing_def :
  contains "def " "function def " = true
  /\ strip (lower "function def ") = "function def"
  /\ _detect_language "function def " = "javascript".
Proof. repeat split. Qed.

(** ** Severity breakdown *)

Lemma count_severity_partition (comments : list string) :
  count_severity comments "harsh" + count_severity comments "moderate"
  + count_severity comments "neutral" = length comments.
Proof.
  unfold count_severity; induction comments as [|c comments IH]; [reflexivity|].
  cbn [filter length].
  destruct (assess_comment_severity_cases c) as [H|[H|[H|[]]]];
    rewrite <- H; simpl; lia.
Qed.

(** C10. For every code snippet and comment list, the severity breakdown of
    [analyze_code_quality] has exactly the entries harsh, moderate and
    neutral, every comment falls under exactly one of them, and the three
    counts add up to the total number of issues, which is the length of the
    comment list. *)
Theorem severity_breakdown_partition
  (round1 : Q -> Q) (code_snippet : string) (comments : list string) :
  let a := analyze_code_quality round1 code_snippet comments in
  let harsh := length (filter (fun c => String.eqb (_assess_comment_severity c) "harsh") comments) in
  let moderate := length (filter (fun c => String.eqb (_assess_comment_severity c) "moderate") comments) in
  let neutral := length (filter (fun c => String.eqb (_assess_comment_severity c) "neutral") comments) in
  severity_breakdown a = [("harsh", harsh); ("moderate", moderate); ("neutral", neutral)]
  /\ harsh + moderate + neutral = total_issues a
  /\ total_issues a = length comments
  /\ Forall (fun c => In (_assess_comment_severity c) ["harsh"; "moderate"; "neutral"])
            comments.
Proof.
  intros a harsh moderate neutral; repeat split.
  - apply (count_severity_partition comments).
  - apply Forall_forall; intros c _; apply assess_comment_severity_cases.
Qed.

(** ** Batch severity *)

(** C7. For every non-empty comment list, the severity that conditions the
    prompt is a most frequent one among the per-comment severities, and of
    the severities tied for most frequent it is the one whose first
    occurrence in that sequence comes earliest. *)
Theorem overall_severity_first_mode (comments : list string) :
  comments <> [] ->
  let severities := comment_severities comments in
  exists s,
    overall_severity comments = Ok s
    /\ In s severities
    /\ (forall t, list_count severities t <= list_count severities s)
    /\ (forall t, In t severities ->
                  list_count severities t = list_count severities s ->
                  list_index s severities <= list_index t severities)
    /\ (forall persona persona_prompts base_prompt user_prompt client
               code_snippet language,
          _generate_empathetic_review persona persona_prompts base_prompt
            user_prompt client code_snippet comments (Some language)
          = reraise "Error generating review: "
              (content <- client
                            (_create_system_prompt persona persona_prompts
                               base_prompt s language)
                            (user_prompt language code_snippet comments) ;;
               Ok (strip content))).
Proof.
  intros Hne severities.
  destruct (overall_severity comments) as [s|e] eqn:Hs.
  - exists s.
    destruct (max_count_first_mode severities s Hs) as (Hin & Hmax & Hfirst).
    repeat split; try assumption.
    intros; unfold _generate_empathetic_review; rewrite Hs; reflexivity.
  - destruct comments; [contradiction | discriminate].
Qed.

Lemma overall_severity_first_mode_witness :
  let comments := ["Looks fine."; "This is terrible."; "This is awful."; "Fine."] in
  let severities := comment_severities comments in
  exists s,
    overall_severity comments = Ok s
    /\ In s severities
    /\ (forall t, list_count severities t <= list_count severities s)
    /\ (forall t, In t severities ->
                  list_count severities t = list_count severities s ->
                  list_index s severities <= list_index t severities)
    /\ (forall persona persona_prompts base_prompt user_prompt client
               code_snippet language,
          _generate_empathetic_review persona persona_prompts base_prompt
            user_prompt client code_snippet comments (Some language)
          = reraise "Error generating review: "
              (content <- client
                            (_create_system_prompt persona persona_prompts
                               base_prompt s language)
                            (user_prompt language code_snippet comments) ;;
               Ok (strip content))).
Proof.
  apply (overall_severity_first_mode
           ["Looks fine."; "This is terrible."; "This is awful."; "Fine."]).
  discriminate.
Defined.

(** With two severities tied, the one met first wins. *)
Example overall_severity_tie :
  comment_severities ["Looks fine."; "This is terrible."; "This is awful."; "Fine."]
  = ["moderate"; "harsh"; "harsh"; "moderate"]
  /\ overall_severity ["Looks fine."; "This is terrible."; "This is awful."; "Fine."]
     = Ok "moderate".
Proof. split; reflexivity. Qed.

(** ** Resources *)

(** C6, as the code has it.  For every comment, code and language the
    resource linker returns no empty string; and when the report is
    assembled, the links collected over all the comments are deduplicated,
    each link kept once, in the order of the first occurrences. *)
Theorem resources_nonempty_then_deduplicated :
  (forall comment code_snippet language,
     ~ In "" (_get_relevant_resources comment code_snippet language))
  /\ (forall code_snippet comments language,
        let all_resources := collect_resources code_snippet comments language in
        let unique_resources := dict_fromkeys all_resources in
        NoDup unique_resources
        /\ (forall r, In r unique_resources <-> In r all_resources)
        /\ (forall r1 r2, In r1 all_resources -> In r2 all_resources ->
              (list_index r1 unique_resources < list_index r2 unique_resources
               <-> list_index r1 all_resources < list_index r2 all_resources))
        /\ (forall review_content,
              _enhance_with_resources review_content code_snippet comments
                (Some language)
              = match unique_resources with
                | [] => review_content
                | _ => (review_content ++ resource_lines unique_resources)%string
                end)).
Proof.
  split.
  - intros comment code_snippet language H.
    unfold _get_relevant_resources in H.
    apply filter_In in H; destruct H as [_ H]; discriminate.
  - intros code_snippet comments language all_resources unique_resources.
    subst unique_resources; rewrite dict_fromkeys_first_seen.
    repeat split.
    + apply first_seen_NoDup.
    + intros H; apply first_seen_In in H; tauto.
    + intros H; apply first_seen_In; auto.
    + apply first_seen_order; auto.
    + apply first_seen_order; auto.
    + intros review_content; unfold _enhance_with_resources.
      fold all_resources; now rewrite dict_fromkeys_first_seen.
Qed.

(** C6 fails as worded: for python code holding "== True" and a comment
    about style, the linker returns the style guide twice. *)
Lemma resources_duplicate_style :
  _get_relevant_resources "Inconsistent style." "if done == True: pass" (Some "python")
  = ["[PEP 8 - Style Guide](https://peps.python.org/pep-0008/)";
     "[PEP 8 - Style Guide](https://peps.python.org/pep-0008/)"]
  /\ ~ NoDup (_get_relevant_resources "Inconsistent style." "if done == True: pass"
                (Some "python")).
Proof.
  split; [reflexivity|].
  intros H; change (NoDup ["[PEP 8 - Style Guide](https://peps.python.org/pep-0008/)";
                           "[PEP 8 - Style Guide](https://peps.python.org/pep-0008/)"]) in H.
  inversion H as [|x l Hnot _]; apply Hnot; now left.
Qed.

(** ** Validation *)

(** C4, as the code has it.  The validation accepts a structured input if
    and only if it has both keys and its [review_comments] is a non-empty
    list; the value under [code_snippet] and the elements of the list are not
    examined.  Every other input fails with the validation error. *)
Theorem validate_input_accepts_iff (input_data : dict json) :
  (is_ok (validate_input input_data) = true
   <-> exists code_snippet c cs,
         dict_lookup "code_snippet" input_data = Some code_snippet
         /\ dict_lookup "review_comments" input_data = Some (JList (c :: cs)))
  /\ match validate_input input_data with
     | Ok (code_snippet, comments) =>
         dict_lookup "code_snippet" input_data = Some code_snippet
         /\ dict_lookup "review_comments" input_data = Some (JList comments)
     | Raise e => exn_kind e = ValueError
     end
  /\ (wellformed_request input_data = true
      -> is_ok (validate_input input_data) = true).
Proof.
  unfold validate_input, wellformed_request.
  destruct (dict_lookup "code_snippet" input_data) as [code|];
    destruct (dict_lookup "review_comments" input_data) as [[| | | | |[|c cs]|]|];
    simpl; repeat split; try reflexivity; try discriminate;
    try (intros (? & ? & ? & ? & ?); discriminate);
    try (intros _; now exists code, c, cs);
    try (destruct code; discriminate).
Qed.

(** C4 fails as worded: an empty [code_snippet], and a comment that is not a
    string, both pass the validation. *)
Lemma validate_input_accepts_malformed :
  wellformed_request
    [("code_snippet", JStr ""); ("review_comments", JList [JStr "Rename it."])] = false
  /\ is_ok (validate_input
       [("code_snippet", JStr ""); ("review_comments", JList [JStr "Rename it."])]) = true
  /\ wellformed_request
       [("code_snippet", JStr "x = 1"); ("review_comments", JList [JInt 7])] = false
  /\ is_ok (validate_input
       [("code_snippet", JStr "x = 1"); ("review_comments", JList [JInt 7])]) = true.
Proof. repeat split. Qed.

(** C5, as the code has it.  When a key is missing or [review_comments] is
    not a non-empty list, [generate_review_report] fails on the validation,
    whatever the code snippet is and whatever the service would answer: it
    raises the generic exception whose message is the validation message
    behind "Failed to generate review report: ", and returns neither a score
    nor a report. *)
Theorem invalid_input_raises_first
  (persona : ReviewerPersona) (persona_prompts : ReviewerPersona -> string)
  (base_prompt : string -> string -> string)
  (user_prompt : string -> string -> list string -> string)
  (report_header : string -> ReviewerPersona -> Q -> string)
  (client : string -> string -> result string)
  (input_data : dict json) :
  dict_mem "code_snippet" input_data = false
  \/ dict_mem "review_comments" input_data = false
  \/ (forall c cs, dict_lookup "review_comments" input_data <> Some (JList (c :: cs))) ->
  exists msg,
    validate_input input_data = Raise (mkExn ValueError msg)
    /\ (msg = "Input must contain 'code_snippet' and 'review_comments' keys"
        \/ msg = "'review_comments' must be a non-empty list")
    /\ generate_review_report persona persona_prompts base_prompt user_prompt
         report_header client input_data
       = Raise (mkExn PyException ("Failed to generate review report: " ++ msg)%string).
Proof.
  unfold generate_review_report, validate_input, dict_mem.
  destruct (dict_lookup "code_snippet" input_data) as [code|];
    destruct (dict_lookup "review_comments" input_data) as [[| | | | |[|c cs]|]|];
    intros H;
    try (eexists; split; [reflexivity|split]; [|reflexivity]; auto; fail).
  destruct H as [H|[H|H]]; try discriminate.
  exfalso; now apply (H c cs).
Qed.

Lemma invalid_input_raises_first_witness :
  exists msg,
    validate_input [("code_snippet", JStr "x = 1"); ("review_comments", JList [])]
    = Raise (mkExn ValueError msg)
    /\ (msg = "Input must contain 'code_snippet' and 'review_comments' keys"
        \/ msg = "'review_comments' must be a non-empty list")
    /\ generate_review_report MENTOR (fun _ => "") (fun _ _ => "") (fun _ _ _ => "")
         (fun _ _ _ => "") (fun _ _ => Ok "Well done.")
         [("code_snippet", JStr "x = 1"); ("review_comments", JList [])]
       = Raise (mkExn PyException ("Failed to generate review report: " ++ msg)%string).
Proof.
  apply (invalid_input_raises_first MENTOR (fun _ => "") (fun _ _ => "")
           (fun _ _ _ => "") (fun _ _ _ => "") (fun _ _ => Ok "Well done.")
           [("code_snippet", JStr "x = 1"); ("review_comments", JList [])]).
  right; right; intros c cs; simpl; discriminate.
Defined.

(** C5 fails as worded: a [code_snippet] of the wrong type passes the
    validation and the failure comes from language detection, and a comment
    of the wrong type from the scoring; and the exception that leaves
    [generate_review_report] on an empty comment list is the generic one that
    a failure of the service raises too. *)
Lemma wrong_typed_fields_pass_validation :
  let report := generate_review_report MENTOR (fun _ => "") (fun _ _ => "")
                  (fun _ _ _ => "") (fun _ _ _ => "") in
  is_ok (validate_input
           [("code_snippet", JInt 5); ("review_comments", JList [JStr "Rename it."])])
  = true
  /\ report (fun _ _ => Ok "Well done.")
       [("code_snippet", JInt 5); ("review_comments", JList [JStr "Rename it."])]
     = Raise (mkExn PyException
                "Failed to generate review report: 'int' object has no attribute 'lower'")
  /\ report (fun _ _ => Ok "Well done.")
       [("code_snippet", JStr "x = 1"); ("review_comments", JList [JNull])]
     = Raise (mkExn PyException
                "Failed to generate review report: 'NoneType' object has no attribute 'lower'")
  /\ report (fun _ _ => Ok "Well done.")
       [("code_snippet", JStr "x = 1"); ("review_comments", JList [])]
     = Raise (mkExn PyException
                "Failed to generate review report: 'review_comments' must be a non-empty list")
  /\ report (fun _ _ => Raise (mkExn PyException "Connection error."))
       [("code_snippet", JStr "x = 1"); ("review_comments", JList [JStr "Rename it."])]
     = Raise (mkExn PyException
                "Failed to generate review report: Error generating review: Connection error.").
Proof. repeat split. Qed.


(** * Further properties of the reviewer *)

(** ** Strings *)

Lemma string_app_assoc (a b c : string) :
  ((a ++ b) ++ c = a ++ b ++ c)%string.
Proof. induction a as [|x a IH]; simpl; [reflexivity | now rewrite IH]. Qed.

Lemma string_app_empty_r (a : string) : (a ++ "" = a)%string.
Proof. induction a as [|x a IH]; simpl; [reflexivity | now rewrite IH]. Qed.

Lemma string_app_length (a b : string) :
  String.length (a ++ b) = String.length a + String.length b.
Proof. induction a as [|x a IH]; simpl; [reflexivity | now rewrite IH]. Qed.

Lemma string_app_inv_head (a b c : string) :
  (a ++ b = a ++ c)%string -> b = c.
Proof. induction a as [|x a IH]; simpl; intros H; [assumption | injection H; auto]. Qed.

Lemma prefix_of_append (a b : string) : prefix a (a ++ b) = true.
Proof. apply prefix_append; now exists b. Qed.

Ltac each_ascii c :=
  destruct c as [[] [] [] [] [] [] [] []].

Lemma lower_char_idem (c : ascii) : lower_char (lower_char c) = lower_char c.
Proof. each_ascii c; reflexivity. Qed.

Lemma is_space_lower_char (c : ascii) : is_space (lower_char c) = is_space c.
Proof. each_ascii c; reflexivity. Qed.

Lemma lower_idem (s : string) : lower (lower s) = lower s.
Proof.
  induction s as [|c s IH]; simpl; [reflexivity|].
  now rewrite lower_char_idem, IH.
Qed.

Lemma lower_lstrip (s : string) : lower (lstrip s) = lstrip (lower s).
Proof.
  induction s as [|c s IH]; simpl; [reflexivity|].
  rewrite is_space_lower_char; destruct (is_space c); [assumption | reflexivity].
Qed.

Lemma lower_rstrip (s : string) : lower (rstrip s) = rstrip (lower s).
Proof.
  induction s as [|c s IH]; simpl; [reflexivity|].
  rewrite <- IH, is_space_lower_char.
  destruct (rstrip s); simpl; [destruct (is_space c)|]; reflexivity.
Qed.

Lemma lower_strip (s : string) : lower (strip s) = strip (lower s).
Proof. unfold strip; now rewrite lower_rstrip, lower_lstrip. Qed.

Lemma rstrip_cons (c : ascii) (s : string) :
  rstrip (String c s)
  = match rstrip s with
    | EmptyString => if is_space c then EmptyString else String c EmptyString
    | r => String c r
    end.
Proof. reflexivity. Qed.

Lemma rstrip_idem (s : string) : rstrip (rstrip s) = rstrip s.
Proof.
  induction s as [|c s IH]; [reflexivity|].
  rewrite rstrip_cons.
  destruct (rstrip s) as [|r rs] eqn:Hr.
  - destruct (is_space c) eqn:Hc; [reflexivity|].
    rewrite rstrip_cons; simpl; now rewrite Hc.
  - rewrite rstrip_cons, IH; reflexivity.
Qed.

(** A text that does not start with whitespace keeps its start under
    [rstrip]. *)
Lemma lstrip_rstrip_fixed (s : string) :
  lstrip s = s -> lstrip (rstrip s) = rstrip s.
Proof.
  destruct s as [|c s]; [reflexivity|].
  cbn [lstrip]; destruct (is_space c) eqn:Hc.
  - intros H.
    assert (Hlen : String.length (lstrip s) <= String.length s).
    { clear; induction s as [|x s IH]; simpl; [lia|]; destruct (is_space x); simpl; lia. }
    rewrite H in Hlen; simpl in Hlen; lia.
  - intros _; rewrite rstrip_cons.
    destruct (rstrip s); [rewrite Hc|]; cbn [lstrip]; now rewrite Hc.
Qed.

Lemma lstrip_idem (s : string) : lstrip (lstrip s) = lstrip s.
Proof.
  induction s as [|c s IH]; simpl; [reflexivity|].
  destruct (is_space c) eqn:Hc; [assumption | simpl; now rewrite Hc].
Qed.

Lemma strip_idem (s : string) : strip (strip s) = strip s.
Proof.
  unfold strip.
  rewrite (lstrip_rstrip_fixed (lstrip s)) by apply lstrip_idem.
  apply rstrip_idem.
Qed.

Lemma lstrip_suffix (s : string) : exists ws, s = (ws ++ lstrip s)%string.
Proof.
  induction s as [|c s [ws IH]]; simpl; [now exists EmptyString|].
  destruct (is_space c).
  - exists (String c ws); simpl; now rewrite <- IH.
  - now exists EmptyString.
Qed.

Lemma rstrip_prefix (s : string) : exists ws, s = (rstrip s ++ ws)%string.
Proof.
  induction s as [|c s [ws IH]]; simpl; [now exists EmptyString|].
  destruct (rstrip s) as [|r rs].
  - destruct (is_space c).
    + exists (String c ws); simpl in *; now rewrite <- IH.
    + exists ws; simpl in *; now rewrite <- IH.
  - exists ws; simpl in *; now rewrite <- IH.
Qed.

(** What occurs in the stripped text occurs in the text. *)
Lemma contains_strip (w s : string) :
  contains w (strip s) = true -> contains w s = true.
Proof.
  rewrite !contains_occurs; intros (a & b & H).
  destruct (lstrip_suffix s) as [ws1 H1].
  destruct (rstrip_prefix (lstrip s)) as [ws2 H2].
  fold (strip s) in H2; rewrite H in H2; rewrite H2 in H1.
  exists (ws1 ++ a)%string, (b ++ ws2)%string.
  now rewrite H1, !string_app_assoc.
Qed.

(** ** Detection, severity and letter case *)

Lemma detect_language_lower (code_snippet : string) :
  _detect_language (lower code_snippet) = _detect_language code_snippet.
Proof. unfold _detect_language; now rewrite lower_idem. Qed.

(** X1. Language detection ignores the letter case of the snippet and the
    whitespace around it. *)
Theorem detect_language_ignores_case_and_margins (code_snippet : string) :
  _detect_language (lower code_snippet) = _detect_language code_snippet
  /\ _detect_language (strip code_snippet) = _detect_language code_snippet.
Proof.
  split; [apply detect_language_lower|].
  unfold _detect_language; now rewrite lower_strip, strip_idem.
Qed.

(** X2. A detected language other than python is always backed by one of
    that language's patterns occurring in the lower-cased snippet. *)
Theorem detect_language_backed_by_pattern (code_snippet : string) :
  _detect_language code_snippet <> "python" ->
  exists patterns w before after,
    In (_detect_language code_snippet, patterns) language_priority
    /\ In w patterns
    /\ lower code_snippet = (before ++ w ++ after)%string.
Proof.
  intros Hnot.
  assert (H : _detect_language code_snippet
              = first_match language_priority (strip (lower code_snippet)))
    by reflexivity.
  rewrite H in *; clear H.
  destruct (first_match_split language_priority (strip (lower code_snippet)))
    as [(pre & patterns & post & Heq & Hany & _) | [_ Hpy]].
  - remember (first_match language_priority (strip (lower code_snippet))) as found.
    unfold any_in in Hany; apply existsb_exists in Hany.
    destruct Hany as (w & Hw & Hc).
    apply contains_strip, contains_occurs in Hc.
    destruct Hc as (before & after & Hocc).
    exists patterns, w, before, after; repeat split; try assumption.
    rewrite Heq; apply in_or_app; right; now left.
  - congruence.
Qed.

Lemma detect_language_backed_by_pattern_witness :
  exists patterns w before after,
    In (_detect_language "const total = 0;", patterns) language_priority
    /\ In w patterns
    /\ lower "const total = 0;" = (before ++ w ++ after)%string.
Proof.
  apply (detect_language_backed_by_pattern "const total = 0;").
  vm_compute; discriminate.
Defined.

Lemma assess_comment_severity_lower (comment : string) :
  _assess_comment_severity (lower comment) = _assess_comment_severity comment.
Proof.
  unfold _assess_comment_severity, harsh_count, neutral_count.
  now rewrite lower_idem.
Qed.

Lemma score_comment_lower (d : Dimensions) (comment : string) :
  score_comment d (lower comment) = score_comment d comment.
Proof.
  unfold score_comment; now rewrite assess_comment_severity_lower, lower_idem.
Qed.

Lemma score_loop_lower (comments : list string) (d : Dimensions) :
  fold_left score_comment (map lower comments) d
  = fold_left score_comment comments d.
Proof.
  revert d; induction comments as [|c comments IH]; intros d; simpl; [reflexivity|].
  now rewrite score_comment_lower, IH.
Qed.

(** X3. The letter case of the comments and of the code changes neither the
    severity of a comment, nor the quality score, nor the links selected. *)
Theorem letter_case_is_ignored
  (comment code_snippet : string) (comments : list string)
  (language : string) (language' : option string) :
  _assess_comment_severity (lower comment) = _assess_comment_severity comment
  /\ _calculate_code_quality_score (lower code_snippet) (map lower comments) language
     = _calculate_code_quality_score code_snippet comments language
  /\ _get_relevant_resources (lower comment) (lower code_snippet) language'
     = _get_relevant_resources comment code_snippet language'.
Proof.
  split; [apply assess_comment_severity_lower|split].
  - unfold _calculate_code_quality_score; now rewrite score_loop_lower.
  - unfold _get_relevant_resources.
    rewrite !lower_idem, detect_language_lower; reflexivity.
Qed.

(** ** More on the quality score *)

Lemma clamp_monotone (x y : Q) : (x <= y)%Q -> (clamp x <= clamp y)%Q.
Proof.
  intros H; unfold clamp, py_max, py_min.
  destruct (Qlt_le_dec x 10); destruct (Qlt_le_dec y 10);
    repeat match goal with
           | |- context [Qlt_le_dec ?a ?b] => destruct (Qlt_le_dec a b)
           end; lra.
Qed.

Lemma clamp_proper (x y : Q) : (x == y)%Q -> (clamp x == clamp y)%Q.
Proof.
  intros H; apply Qle_antisym; apply clamp_monotone; lra.
Qed.

Lemma clamp_above (x : Q) : (x <= 10)%Q -> (x <= clamp x)%Q.
Proof.
  intros H; unfold clamp, py_max, py_min.
  destruct (Qlt_le_dec x 10);
    repeat match goal with
           | |- context [Qlt_le_dec ?a ?b] => destruct (Qlt_le_dec a b)
           end; lra.
Qed.

Lemma score_comment_untouched (d : Dimensions) (comment : string) :
  any_in dimension_triggers (lower comment) = false ->
  score_comment d comment = d.
Proof.
  unfold dimension_triggers, any_in; rewrite !existsb_app, !orb_false_iff.
  intros (Hr & Hp & Hm & Hb); unfold score_comment, any_in.
  rewrite Hr, Hp, Hm, Hb; now destruct d.
Qed.

(** X4. Comments that hold no trigger word of any dimension leave the score
    at the baseline: the four dimensions and the overall score are 7.0 and
    the improvement potential is 3.0.  An empty comment list is such a
    case. *)
Theorem score_untouched_without_triggers
  (code_snippet : string) (comments : list string) (language : string) :
  Forall (fun c => any_in dimension_triggers (lower c) = false) comments ->
  let q := _calculate_code_quality_score code_snippet comments language in
  readability q = 7%Q
  /\ performance q = 7%Q
  /\ maintainability q = 7%Q
  /\ best_practices q = 7%Q
  /\ (overall_score q == 7)%Q
  /\ (improvement_potential q == 3)%Q.
Proof.
  intros H q; subst q; unfold _calculate_code_quality_score.
  assert (Hd : fold_left score_comment comments baseline = baseline).
  { generalize baseline; induction H as [|c comments Hc _ IH]; intros d; simpl.
    - reflexivity.
    - now rewrite score_comment_untouched, IH. }
  rewrite Hd; repeat split; reflexivity.
Qed.

Lemma score_untouched_without_triggers_witness :
  let q := _calculate_code_quality_score "x = 1" ["Looks fine."; "No type hints"] "python" in
  readability q = 7%Q
  /\ performance q = 7%Q
  /\ maintainability q = 7%Q
  /\ best_practices q = 7%Q
  /\ (overall_score q == 7)%Q
  /\ (improvement_potential q == 3)%Q.
Proof.
  apply (score_untouched_without_triggers "x = 1" ["Looks fine."; "No type hints"] "python").
  repeat constructor.
Defined.

(** X5. Further comments never raise the score: with comments added to the
    list, no dimension and not the overall score goes up, and the
    improvement potential does not go down. *)
Theorem more_comments_never_raise_score
  (code_snippet : string) (comments more : list string) (language : string) :
  let q := _calculate_code_quality_score code_snippet comments language in
  let q' := _calculate_code_quality_score code_snippet (comments ++ more) language in
  (readability q' <= readability q)%Q
  /\ (performance q' <= performance q)%Q
  /\ (maintainability q' <= maintainability q)%Q
  /\ (best_practices q' <= best_practices q)%Q
  /\ (overall_score q' <= overall_score q)%Q
  /\ (improvement_potential q <= improvement_potential q')%Q.
Proof.
  intros q q'; subst q q'; unfold _calculate_code_quality_score.
  rewrite fold_left_app.
  destruct (score_loop_decreases more (fold_left score_comment comments baseline))
    as (Hr & Hp & Hm & Hb).
  apply clamp_monotone in Hr, Hp, Hm, Hb.
  cbn [overall_score readability performance maintainability best_practices
       improvement_potential].
  unfold Qdiv; change (/ 4)%Q with (1 # 4)%Q.
  repeat split; lra.
Qed.

Lemma severity_weight_at_least (severity : string) :
  (-2 <= dict_get severity (-1 # 2) severity_weights)%Q.
Proof.
  unfold dict_get, severity_weights; simpl.
  repeat match goal with
         | |- context [if ?b then _ else _] => destruct b
         end; discriminate.
Qed.

Lemma add_if_at_least (b : bool) (x weight : Q) :
  (-2 <= weight)%Q -> (weight < 0)%Q -> (x - 2 <= add_if b x weight)%Q.
Proof. intros H1 H2; destruct b; simpl; lra. Qed.

Lemma inject_succ (n : nat) :
  (inject_Z (Z.of_nat (S n)) == inject_Z (Z.of_nat n) + 1)%Q.
Proof. rewrite Nat2Z.inj_succ; unfold Z.succ; now rewrite inject_Z_plus. Qed.

Lemma score_comment_at_least (d : Dimensions) (comment : string) :
  (dim_readability d - 2 <= dim_readability (score_comment d comment))%Q
  /\ (dim_performance d - 2 <= dim_performance (score_comment d comment))%Q
  /\ (dim_maintainability d - 2 <= dim_maintainability (score_comment d comment))%Q
  /\ (dim_best_practices d - 2 <= dim_best_practices (score_comment d comment))%Q.
Proof.
  pose proof (severity_weight_negative (_assess_comment_severity comment)).
  pose proof (severity_weight_at_least (_assess_comment_severity comment)).
  unfold score_comment;
    cbn [dim_readability dim_performance dim_maintainability dim_best_practices].
  repeat split; now apply add_if_at_least.
Qed.

(** One comment costs a dimension at most two points. *)
Lemma score_loop_at_least (comments : list string) (d : Dimensions) :
  let d' := fold_left score_comment comments d in
  let n := inject_Z (Z.of_nat (length comments)) in
  (dim_readability d - 2 * n <= dim_readability d')%Q
  /\ (dim_performance d - 2 * n <= dim_performance d')%Q
  /\ (dim_maintainability d - 2 * n <= dim_maintainability d')%Q
  /\ (dim_best_practices d - 2 * n <= dim_best_practices d')%Q.
Proof.
  revert d; induction comments as [|c comments IH]; intros d.
  - simpl; change (inject_Z 0) with 0%Q; repeat split; lra.
  - cbn [fold_left length]; cbv zeta.
    destruct (IH (score_comment d c)) as (Hr & Hp & Hm & Hb).
    destruct (score_comment_at_least d c) as (Sr & Sp & Sm & Sb).
    pose proof (inject_succ (length comments)) as Hs.
    cbv zeta in Hr, Hp, Hm, Hb.
    repeat split; lra.
Qed.

(** X6. A comment lowers a dimension by two points at most: with [n]
    comments each dimension, and so the overall score, is at least
    7.0 - 2 n. *)
Theorem score_at_least_baseline_minus_two_each
  (code_snippet : string) (comments : list string) (language : string) :
  let q := _calculate_code_quality_score code_snippet comments language in
  let n := inject_Z (Z.of_nat (length comments)) in
  (7 - 2 * n <= readability q)%Q
  /\ (7 - 2 * n <= performance q)%Q
  /\ (7 - 2 * n <= maintainability q)%Q
  /\ (7 - 2 * n <= best_practices q)%Q
  /\ (7 - 2 * n <= overall_score q)%Q
  /\ (improvement_potential q <= 3 + 2 * n)%Q.
Proof.
  intros q n; subst q; unfold _calculate_code_quality_score.
  destruct (score_loop_at_least comments baseline) as (Lr & Lp & Lm & Lb).
  destruct (score_loop_decreases comments baseline) as (Hr & Hp & Hm & Hb).
  set (d := fold_left score_comment comments baseline) in *.
  cbv zeta in Lr, Lp, Lm, Lb; fold n in Lr, Lp, Lm, Lb.
  cbn [dim_readability dim_performance dim_maintainability dim_best_practices
       baseline] in *.
  assert (dim_readability d <= clamp (dim_readability d))%Q by (apply clamp_above; lra).
  assert (dim_performance d <= clamp (dim_performance d))%Q by (apply clamp_above; lra).
  assert (dim_maintainability d <= clamp (dim_maintainability d))%Q
    by (apply clamp_above; lra).
  assert (dim_best_practices d <= clamp (dim_best_practices d))%Q
    by (apply clamp_above; lra).
  cbn [overall_score readability performance maintainability best_practices
       improvement_potential].
  unfold Qdiv; change (/ 4)%Q with (1 # 4)%Q.
  repeat split; lra.
Qed.

(** *** The order of the comments *)

Lemma add_if_proper (b : bool) (x y weight : Q) :
  (x == y)%Q -> (add_if b x weight == add_if b y weight)%Q.
Proof. intros H; destruct b; simpl; lra. Qed.

Lemma add_if_swap (b1 b2 : bool) (x w1 w2 : Q) :
  (add_if b2 (add_if b1 x w1) w2 == add_if b1 (add_if b2 x w2) w1)%Q.
Proof. destruct b1, b2; simpl; lra. Qed.

Lemma dims_eq_refl (d : Dimensions) : dims_eq d d.
Proof. repeat split; reflexivity. Qed.

Lemma dims_eq_trans (d1 d2 d3 : Dimensions) :
  dims_eq d1 d2 -> dims_eq d2 d3 -> dims_eq d1 d3.
Proof.
  intros (? & ? & ? & ?) (? & ? & ? & ?); repeat split; etransitivity; eassumption.
Qed.

Lemma score_comment_proper (d d' : Dimensions) (comment : string) :
  dims_eq d d' -> dims_eq (score_comment d comment) (score_comment d' comment).
Proof.
  intros (? & ? & ? & ?); unfold score_comment, dims_eq;
    cbn [dim_readability dim_performance dim_maintainability dim_best_practices].
  repeat split; now apply add_if_proper.
Qed.

Lemma score_comment_swap (d : Dimensions) (a b : string) :
  dims_eq (score_comment (score_comment d a) b) (score_comment (score_comment d b) a).
Proof.
  unfold score_comment, dims_eq;
    cbn [dim_readability dim_performance dim_maintainability dim_best_practices].
  repeat split; apply add_if_swap.
Qed.

Lemma score_loop_proper (comments : list string) (d d' : Dimensions) :
  dims_eq d d' ->
  dims_eq (fold_left score_comment comments d) (fold_left score_comment comments d').
Proof.
  revert d d'; induction comments as [|c comments IH]; intros d d' H; simpl.
  - assumption.
  - now apply IH, score_comment_proper.
Qed.

Lemma score_loop_permutation (comments comments' : list string) :
  Permutation comments comments' ->
  forall d, dims_eq (fold_left score_comment comments d)
                    (fold_left score_comment comments' d).
Proof.
  induction 1 as [|c l l' _ IH|a b l|l1 l2 l3 _ IH1 _ IH2]; intros d; simpl.
  - apply dims_eq_refl.
  - apply IH.
  - apply score_loop_proper, score_comment_swap.
  - eapply dims_eq_trans; [apply IH1 | apply IH2].
Qed.

(** X7. The score does not depend on the order of the comments: two lists
    with the same comments in another order get numerically equal
    scores. *)
Theorem score_ignores_comment_order
  (code_snippet : string) (comments comments' : list string) (language : string) :
  Permutation comments comments' ->
  score_eq (_calculate_code_quality_score code_snippet comments language)
           (_calculate_code_quality_score code_snippet comments' language).
Proof.
  intros H; destruct (score_loop_permutation comments comments' H baseline)
    as (Hr & Hp & Hm & Hb).
  apply clamp_proper in Hr, Hp, Hm, Hb.
  unfold score_eq, _calculate_code_quality_score.
  cbn [overall_score readability performance maintainability best_practices
       improvement_potential].
  unfold Qdiv; change (/ 4)%Q with (1 # 4)%Q.
  repeat split; lra.
Qed.

Lemma score_ignores_comment_order_witness :
  score_eq
    (_calculate_code_quality_score "x = 1"
       ["This is slow."; "Variable 'u' is a bad name."] "python")
    (_calculate_code_quality_score "x = 1"
       ["Variable 'u' is a bad name."; "This is slow."] "python").
Proof.
  apply (score_ignores_comment_order "x = 1"
           ["This is slow."; "Variable 'u' is a bad name."]
           ["Variable 'u' is a bad name."; "This is slow."] "python").
  apply perm_swap.
Defined.

(** ** More on the resource section *)

Lemma dict_fromkeys_In (l : list string) (x : string) :
  In x (dict_fromkeys l) <-> In x l.
Proof.
  rewrite dict_fromkeys_first_seen, first_seen_In; simpl; tauto.
Qed.

Lemma fromkeys_absorb (l keys : list string) :
  (forall x, In x l -> In x keys) ->
  fold_left
    (fun keys k => if existsb (String.eqb k) keys then keys else keys ++ [k])
    l keys
  = keys.
Proof.
  induction l as [|k l IH]; intros H; simpl; [reflexivity|].
  assert (Hk : existsb (String.eqb k) keys = true)
    by (apply existsb_eqb_In, H; now left).
  rewrite Hk; apply IH; intros x Hx; apply H; now right.
Qed.

Lemma dict_fromkeys_absorb (l more : list string) :
  (forall x, In x more -> In x l) ->
  dict_fromkeys (l ++ more) = dict_fromkeys l.
Proof.
  intros H; unfold dict_fromkeys; rewrite fold_left_app.
  apply fromkeys_absorb; intros x Hx.
  apply (dict_fromkeys_In l x), H, Hx.
Qed.

(** X8. Comments that are already in the list add nothing to the resource
    section: the enhanced review is the same with and without them. *)
Theorem repeated_comments_add_no_resources
  (review_content code_snippet : string) (comments more : list string)
  (language : option string) :
  incl more comments ->
  _enhance_with_resources review_content code_snippet (comments ++ more) language
  = _enhance_with_resources review_content code_snippet comments language.
Proof.
  intros H; unfold _enhance_with_resources, collect_resources.
  rewrite flat_map_app, dict_fromkeys_absorb; [reflexivity|].
  intros r Hr; apply in_flat_map in Hr; destruct Hr as (c & Hc & Hr).
  apply in_flat_map; exists c; split; [now apply H | assumption].
Qed.

Lemma repeated_comments_add_no_resources_witness :
  _enhance_with_resources "Well done." "if done == True: pass"
    (["Inconsistent style."; "This is slow."] ++ ["Inconsistent style."]) None
  = _enhance_with_resources "Well done." "if done == True: pass"
      ["Inconsistent style."; "This is slow."] None.
Proof.
  apply (repeated_comments_add_no_resources "Well done." "if done == True: pass"
           ["Inconsistent style."; "This is slow."] ["Inconsistent style."] None).
  intros c [<-|[]]; now left.
Defined.

Lemma resource_lines_extends (unique_resources : list string) (section : string) :
  exists tail,
    fold_left (fun section resource => section ++ "- " ++ resource ++ LF)%string
              unique_resources section
    = (section ++ tail)%string.
Proof.
  revert section; induction unique_resources as [|r l IH]; intros section;
    cbn [fold_left].
  - exists EmptyString; now rewrite string_app_empty_r.
  - destruct (IH (section ++ "- " ++ r ++ LF)%string) as [tail H].
    exists (("- " ++ r ++ LF) ++ tail)%string.
    now rewrite H, string_app_assoc.
Qed.

Lemma resource_lines_not_empty (unique_resources : list string) :
  resource_lines unique_resources <> EmptyString.
Proof.
  unfold resource_lines.
  destruct (resource_lines_extends unique_resources
              (LF ++ LF ++ "## Additional Resources" ++ LF ++ LF
               ++ "For further learning, consider reviewing these resources:"
               ++ LF ++ LF)%string) as [tail H].
  rewrite H; discriminate.
Qed.

Lemma flat_map_nil {A B : Type} (f : A -> list B) (l : list A) :
  flat_map f l = [] <-> Forall (fun x => f x = []) l.
Proof.
  induction l as [|x l IH]; simpl.
  - split; [constructor | reflexivity].
  - split.
    + intros H; apply app_eq_nil in H; destruct H as [Hx Hl].
      constructor; [assumption | now apply IH].
    + intros H; inversion H as [|? ? Hx Hl]; subst.
      rewrite Hx; now apply IH.
Qed.

(** X9. Enhancing never alters the review text, which stays the prefix of
    the result; and the result is the review itself exactly when no comment
    selects a link. *)
Theorem enhance_keeps_review
  (review_content code_snippet : string) (comments : list string)
  (language : option string) :
  let enhanced :=
    _enhance_with_resources review_content code_snippet comments language in
  prefix review_content enhanced = true
  /\ (enhanced = review_content
      <-> Forall (fun comment =>
                    _get_relevant_resources comment code_snippet
                      (Some (resolved_language code_snippet language)) = [])
                 comments).
Proof.
  intros enhanced; subst enhanced; unfold _enhance_with_resources.
  fold (resolved_language code_snippet language).
  set (l := resolved_language code_snippet language).
  rewrite <- (flat_map_nil (fun comment => _get_relevant_resources comment code_snippet (Some l))).
  fold (collect_resources code_snippet comments l).
  set (all := collect_resources code_snippet comments l).
  destruct (dict_fromkeys all) as [|r u] eqn:Hu.
  - split.
    + apply prefix_append; exists EmptyString; now rewrite string_app_empty_r.
    + split; [intros _ | reflexivity].
      destruct all as [|x all']; [reflexivity|].
      assert (Hx : In x (dict_fromkeys (x :: all'))) by (apply dict_fromkeys_In; now left).
      rewrite Hu in Hx; contradiction.
  - split; [apply prefix_of_append|].
    split.
    + intros H; exfalso.
      rewrite <- (string_app_empty_r review_content) in H at 2.
      apply string_app_inv_head in H.
      now apply (resource_lines_not_empty (r :: u)).
    + intros H; rewrite H in Hu; discriminate.
Qed.

Lemma resource_lines_bullet (unique_resources : list string) (section r : string) :
  In r unique_resources ->
  exists before after,
    fold_left (fun section resource => section ++ "- " ++ resource ++ LF)%string
              unique_resources section
    = (before ++ ("- " ++ r ++ LF) ++ after)%string.
Proof.
  revert section; induction unique_resources as [|x l IH]; intros section Hin;
    [contradiction|]; cbn [fold_left].
  destruct Hin as [->|Hin].
  - destruct (resource_lines_extends l (section ++ "- " ++ r ++ LF)%string)
      as [tail H].
    exists section, tail; now rewrite H, !string_app_assoc.
  - now apply IH.
Qed.

(** X10. Every link selected for some comment is listed in the enhanced
    review, on a bullet line of its own. *)
Theorem selected_links_are_listed
  (review_content code_snippet comment : string) (comments : list string)
  (language : option string) :
  In comment comments ->
  Forall (fun r =>
            contains ("- " ++ r ++ LF)
              (_enhance_with_resources review_content code_snippet comments language)
            = true)
         (_get_relevant_resources comment code_snippet
            (Some (resolved_language code_snippet language))).
Proof.
  intros Hc; apply Forall_forall; intros r Hr.
  unfold _enhance_with_resources; fold (resolved_language code_snippet language).
  set (l := resolved_language code_snippet language) in *.
  assert (Hall : In r (collect_resources code_snippet comments l))
    by (apply in_flat_map; now exists comment).
  apply dict_fromkeys_In in Hall.
  destruct (dict_fromkeys (collect_resources code_snippet comments l))
    as [|x u] eqn:Hu; [contradiction|].
  destruct (resource_lines_bullet (x :: u)
              (LF ++ LF ++ "## Additional Resources" ++ LF ++ LF
               ++ "For further learning, consider reviewing these resources:"
               ++ LF ++ LF)%string r Hall) as (before & after & H).
  apply contains_occurs; exists (review_content ++ before)%string, after.
  unfold resource_lines; rewrite H; now rewrite !string_app_assoc.
Qed.

Lemma selected_links_are_listed_witness :
  Forall (fun r =>
            contains ("- " ++ r ++ LF)
              (_enhance_with_resources "Well done." "x = 1"
                 ["This is slow."; "Bad variable naming."] None)
            = true)
         (_get_relevant_resources "Bad variable naming." "x = 1"
            (Some (resolved_language "x = 1" None))).
Proof.
  apply (selected_links_are_listed "Well done." "x = 1" "Bad variable naming."
           ["This is slow."; "Bad variable naming."] None).
  right; now left.
Defined.

Lemma in_append_if (b : bool) (x r : string) (l : list string) :
  In r (append_if b x l) -> r = x \/ In r l.
Proof.
  unfold append_if; destruct b; [|now right].
  intros H; apply in_app_or in H; destruct H as [H|[H|[]]]; auto.
Qed.

Lemma dict_get_found (key r : string) (d : dict string) :
  r = dict_get key "" d -> r <> "" -> dict_lookup key d = Some r.
Proof.
  unfold dict_get; destruct (dict_lookup key d); intros -> H; congruence.
Qed.

Ltac split_appends H :=
  repeat (apply in_append_if in H; destruct H as [H|H]).

(** X11. Every link the linker returns is an entry of the resource table of
    the language it works with: the table of the given or detected language,
    or python's when that language has no table. *)
Theorem links_come_from_the_language_table
  (comment code_snippet : string) (language : option string) :
  let table :=
    resources (dict_get (resolved_language code_snippet language)
                 python_config language_configs) in
  Forall (fun r => exists topic, dict_lookup topic table = Some r)
         (_get_relevant_resources comment code_snippet language).
Proof.
  intros table; apply Forall_forall; intros r H.
  unfold _get_relevant_resources in H; cbv zeta in H.
  fold (resolved_language code_snippet language) in H; fold table in H.
  apply filter_In in H; destruct H as [H Hne].
  assert (Hr : r <> "") by (intros ->; discriminate).
  repeat match type of H with
         | context [if ?b then _ else _] => destruct b
         end;
    split_appends H; try contradiction;
    eexists; apply dict_get_found; eassumption.
Qed.

Lemma unsupported_language_eqb (language : string) :
  ~ In language get_supported_languages ->
  String.eqb language "python" = false
  /\ String.eqb language "javascript" = false
  /\ String.eqb language "java" = false
  /\ String.eqb language "cpp" = false
  /\ String.eqb language "go" = false.
Proof.
  intros H; repeat split; apply String.eqb_neq; intros ->; apply H;
    unfold get_supported_languages; simpl; auto 10.
Qed.

(** X12. For a language outside the five supported ones the linker falls
    back on python's table and applies the generic triggers only: whatever
    it returns is python's naming, performance or style link. *)
Theorem unsupported_language_gets_generic_python_links
  (comment code_snippet language : string) :
  ~ In language get_supported_languages ->
  incl (_get_relevant_resources comment code_snippet (Some language))
       [dict_get "naming" "" (resources python_config);
        dict_get "performance" "" (resources python_config);
        dict_get "style" "" (resources python_config)].
Proof.
  intros H; destruct (unsupported_language_eqb language H) as (Hp & Hj & Hv & Hc & Hg).
  intros r Hr; unfold _get_relevant_resources in Hr; cbv zeta in Hr.
  rewrite Hp, Hj, Hv, Hc, Hg in Hr.
  assert (Hcfg : dict_get language python_config language_configs = python_config).
  { unfold dict_get, language_configs, _init_language_configs; cbn [dict_lookup].
    now rewrite Hp, Hj, Hv, Hc, Hg. }
  rewrite Hcfg in Hr; apply filter_In in Hr; destruct Hr as [Hr _].
  split_appends Hr; try contradiction; subst r; simpl; auto.
Qed.

Lemma unsupported_language_gets_generic_python_links_witness :
  incl (_get_relevant_resources "Bad naming and style." "fn main() {}" (Some "rust"))
       [dict_get "naming" "" (resources python_config);
        dict_get "performance" "" (resources python_config);
        dict_get "style" "" (resources python_config)].
Proof.
  apply (unsupported_language_gets_generic_python_links
           "Bad naming and style." "fn main() {}" "rust").
  vm_compute; intros H; repeat (destruct H as [H|H]; [discriminate|]); exact H.
Defined.

Lemma in_append_if_new (x : string) (l : list string) :
  In x (append_if true x l).
Proof. unfold append_if; apply in_or_app; right; now left. Qed.

Lemma in_append_if_old (b : bool) (x r : string) (l : list string) :
  In r l -> In r (append_if b x l).
Proof. unfold append_if; destruct b; [intros; apply in_or_app; now left | auto]. Qed.

Ltac eval_language_tests :=
  repeat match goal with
         | |- context [String.eqb ?a ?b] =>
             let v := eval vm_compute in (String.eqb a b) in
             change (String.eqb a b) with v
         end;
  cbv iota.

Ltac find_appended :=
  repeat first [ apply in_append_if_new | apply in_append_if_old ].

(** X13. In each of the five supported languages the generic triggers always
    yield a link: a comment about a variable or naming gets the language's
    naming link, one about efficiency, performance or a loop its performance
    link, and one about style or formatting its style link. *)
Theorem generic_triggers_yield_links
  (comment code_snippet language : string) :
  In language get_supported_languages ->
  let table := resources (dict_get language python_config language_configs) in
  let has := fun w => contains w (lower comment) in
  let links := _get_relevant_resources comment code_snippet (Some language) in
  (has "variable" || has "naming" = true ->
   exists r, dict_lookup "naming" table = Some r /\ In r links)
  /\ (has "efficient" || has "performance" || has "loop" = true ->
      exists r, dict_lookup "performance" table = Some r /\ In r links)
  /\ (has "style" || has "formatting" = true ->
      exists r, dict_lookup "style" table = Some r /\ In r links).
Proof.
  intros H table has links; subst table has links.
  unfold get_supported_languages in H; simpl in H.
  destruct H as [<-|[<-|[<-|[<-|[<-|[]]]]]];
    (split; [|split]); intros Htrig;
    (eexists; split; [reflexivity|]);
    unfold _get_relevant_resources; cbv zeta;
    apply filter_In; (split; [|reflexivity]);
    eval_language_tests; rewrite Htrig; find_appended.
Qed.

Lemma generic_triggers_yield_links_witness :
  let table := resources (dict_get "go" python_config language_configs) in
  let has := fun w => contains w (lower "Poor Naming.") in
  let links := _get_relevant_resources "Poor Naming." "func main() {}" (Some "go") in
  (has "variable" || has "naming" = true ->
   exists r, dict_lookup "naming" table = Some r /\ In r links)
  /\ (has "efficient" || has "performance" || has "loop" = true ->
      exists r, dict_lookup "performance" table = Some r /\ In r links)
  /\ (has "style" || has "formatting" = true ->
      exists r, dict_lookup "style" table = Some r /\ In r links).
Proof.
  apply (generic_triggers_yield_links "Poor Naming." "func main() {}" "go").
  vm_compute; auto 10.
Defined.

(** ** The review and the report *)

Section Outcomes.

Variable persona : ReviewerPersona.
Variable persona_prompts : ReviewerPersona -> string.
Variable base_prompt : string -> string -> string.
Variable user_prompt : string -> string -> list string -> string.
Variable report_header : string -> ReviewerPersona -> Q -> string.
Variable client : string -> string -> result string.

Local Abbreviation review :=
  (_generate_empathetic_review persona persona_prompts base_prompt user_prompt client).
Local Abbreviation report :=
  (generate_review_report persona persona_prompts base_prompt user_prompt
     report_header client).
Local Abbreviation system_prompt :=
  (_create_system_prompt persona persona_prompts base_prompt).

(** X14. The outcomes of [_generate_empathetic_review].  A review is
    returned only for a non-empty comment list and an answer of the service,
    and it is that answer stripped of surrounding whitespace.  An empty
    comment list raises the [ValueError] of [max], unwrapped; any other
    failure is the service's, wrapped behind "Error generating review: ". *)
Theorem review_outcomes
  (code_snippet : string) (comments : list string) (language : option string) :
  let l := resolved_language code_snippet language in
  match review code_snippet comments language with
  | Ok text =>
      comments <> []
      /\ strip text = text
      /\ exists s content,
           overall_severity comments = Ok s
           /\ client (system_prompt s l) (user_prompt l code_snippet comments)
              = Ok content
           /\ text = strip content
  | Raise e =>
      (comments = []
       /\ e = mkExn ValueError "max() arg is an empty sequence")
      \/ (comments <> []
          /\ exists s e0,
               overall_severity comments = Ok s
               /\ client (system_prompt s l) (user_prompt l code_snippet comments)
                  = Raise e0
               /\ e = mkExn PyException
                        ("Error generating review: " ++ exn_msg e0)%string)
  end.
Proof.
  intros l; subst l.
  unfold _generate_empathetic_review; fold (resolved_language code_snippet language).
  destruct comments as [|c cs].
  - left; split; reflexivity.
  - destruct (overall_severity (c :: cs)) as [s|e] eqn:Hs; [|discriminate].
    cbn [bind].
    destruct (client _ _) as [content|e0] eqn:Hc; cbn [bind reraise].
    + split; [discriminate|split]; [apply strip_idem|].
      exists s, content; repeat split; assumption.
    + right; split; [discriminate|].
      exists s, e0; repeat split; assumption.
Qed.

(** X15. Whatever the input and the service do, a failure of
    [generate_review_report] is the generic exception, with a message that
    starts with "Failed to generate review report: ". *)
Theorem report_failures_are_wrapped (input_data : dict json) :
  match report input_data with
  | Ok _ => True
  | Raise e =>
      exn_kind e = PyException
      /\ prefix "Failed to generate review report: " (exn_msg e) = true
  end.
Proof.
  unfold generate_review_report.
  match goal with |- context [reraise _ ?r] => destruct r as [a|e] end;
    cbn [reraise]; [exact I|].
  split; [reflexivity | apply prefix_of_append].
Qed.

Lemma str_lower_receivers_map (l : list string) :
  str_lower_receivers (map JStr l) = Ok l.
Proof. induction l as [|s l IH]; simpl; [reflexivity | now rewrite IH]. Qed.

Lemma str_lower_receivers_inv (l : list json) (ss : list string) :
  str_lower_receivers l = Ok ss -> l = map JStr ss.
Proof.
  revert ss; induction l as [|v l IH]; intros ss; simpl.
  - intros H; injection H as <-; reflexivity.
  - destruct v; simpl; try discriminate.
    destruct (str_lower_receivers l) as [rest|e]; simpl; [|discriminate].
    intros H; injection H as <-; simpl; now rewrite (IH rest).
Qed.

Lemma review_is_stripped
  (code_snippet : string) (comments : list string) (language : option string)
  (text : string) :
  review code_snippet comments language = Ok text ->
  exists content, text = strip content.
Proof.
  unfold _generate_empathetic_review.
  destruct (overall_severity comments) as [s|e]; [|discriminate]; cbn [bind].
  destruct (client _ _) as [content|e0]; cbn [bind reraise]; [|discriminate].
  intros H; injection H as <-; now exists content.
Qed.

(** What a returned report was made from. *)
Lemma report_success_inv
  (input_data : dict json) (final_report : string) (quality_score : CodeQualityScore) :
  report input_data = Ok (final_report, quality_score) ->
  exists code_snippet comments content,
    dict_lookup "code_snippet" input_data = Some (JStr code_snippet)
    /\ dict_lookup "review_comments" input_data = Some (JList (map JStr comments))
    /\ comments <> []
    /\ review code_snippet comments (Some (_detect_language code_snippet))
       = Ok (strip content)
    /\ quality_score
       = _calculate_code_quality_score code_snippet comments
           (_detect_language code_snippet)
    /\ final_report
       = (report_header (_detect_language code_snippet) persona
            (overall_score quality_score)
          ++ _enhance_with_resources (strip content) code_snippet comments
               (Some (_detect_language code_snippet)))%string.
Proof.
  unfold generate_review_report, validate_input.
  destruct (dict_lookup "code_snippet" input_data) as [code|]; [|discriminate].
  destruct (dict_lookup "review_comments" input_data) as [[| | | | |[|c cs]|]|];
    try discriminate.
  cbn [bind].
  destruct code as [| | | |code| |]; try discriminate.
  cbn [str_lower_receiver bind].
  destruct (str_lower_receivers (c :: cs)) as [comments|e] eqn:Hcs; [|discriminate].
  apply str_lower_receivers_inv in Hcs.
  cbn [bind].
  destruct (_generate_empathetic_review persona persona_prompts base_prompt
              user_prompt client code comments (Some (_detect_language code)))
    as [text|e] eqn:Hrev; [|discriminate].
  destruct (review_is_stripped _ _ _ _ Hrev) as [content ->].
  cbn [bind reraise]; intros H; injection H as <- <-.
  exists code, comments, content; rewrite Hcs; repeat split; try assumption.
  intros ->; discriminate.
Qed.

(** X16. When [generate_review_report] returns, the input held a string
    under [code_snippet] and a non-empty list of strings under
    [review_comments]; the score returned is the quality score of these
    comments, and the report is the header for the detected language and
    that score, followed by the stripped answer of the service enhanced with
    the resources. *)
Theorem report_success_composition
  (input_data : dict json) (final_report : string) (quality_score : CodeQualityScore) :
  report input_data = Ok (final_report, quality_score) ->
  exists code_snippet comments content,
    dict_lookup "code_snippet" input_data = Some (JStr code_snippet)
    /\ dict_lookup "review_comments" input_data = Some (JList (map JStr comments))
    /\ comments <> []
    /\ review code_snippet comments (Some (_detect_language code_snippet))
       = Ok (strip content)
    /\ quality_score
       = _calculate_code_quality_score code_snippet comments
           (_detect_language code_snippet)
    /\ final_report
       = (report_header (_detect_language code_snippet) persona
            (overall_score quality_score)
          ++ _enhance_with_resources (strip content) code_snippet comments
               (Some (_detect_language code_snippet)))%string.
Proof. exact (report_success_inv input_data final_report quality_score). Qed.

Lemma map_JStr_injective (l l' : list string) : map JStr l = map JStr l' -> l = l'.
Proof.
  revert l'; induction l as [|x l IH]; intros [|y l']; simpl; try discriminate.
  - reflexivity.
  - intros H; injection H as -> H; now rewrite (IH l').
Qed.

(** X23. The two entry points agree: for a request whose report is returned,
    [analyze_code_quality] on its code and comments reports the language of
    the report, the number of comments, and as metrics the rounded fields of
    the very score returned with the report. *)
Theorem analysis_agrees_with_report
  (round1 : Q -> Q) (input_data : dict json) (code_snippet : string)
  (comments : list string) (final_report : string) (quality_score : CodeQualityScore) :
  dict_lookup "code_snippet" input_data = Some (JStr code_snippet) ->
  dict_lookup "review_comments" input_data = Some (JList (map JStr comments)) ->
  report input_data = Ok (final_report, quality_score) ->
  let analysis := analyze_code_quality round1 code_snippet comments in
  quality_metrics analysis = to_dict round1 quality_score
  /\ language analysis = _detect_language code_snippet
  /\ total_issues analysis = length comments
  /\ prefix (report_header (language analysis) persona (overall_score quality_score))
            final_report = true.
Proof.
  intros Hcode Hcomments Hreport analysis; subst analysis.
  destruct (report_success_inv _ _ _ Hreport)
    as (code' & comments' & content & Hc & Hl & _ & _ & Hq & Hf).
  rewrite Hcode in Hc; injection Hc as <-.
  rewrite Hcomments in Hl; injection Hl as Hl; apply map_JStr_injective in Hl.
  subst comments'; unfold analyze_code_quality;
    cbn [quality_metrics language total_issues].
  rewrite <- Hq; repeat split; try reflexivity.
  rewrite Hf; apply prefix_of_append.
Qed.

(** X17. For a string under [code_snippet] and a non-empty list of strings
    under [review_comments], an answer of the service gives the report: the
    score of the comments, and the header followed by the stripped answer
    enhanced with the resources. *)
Theorem report_of_wellformed_request
  (input_data : dict json) (code_snippet : string) (comments : list string)
  (s content : string) :
  dict_lookup "code_snippet" input_data = Some (JStr code_snippet) ->
  dict_lookup "review_comments" input_data = Some (JList (map JStr comments)) ->
  overall_severity comments = Ok s ->
  client (system_prompt s (_detect_language code_snippet))
         (user_prompt (_detect_language code_snippet) code_snippet comments)
  = Ok content ->
  let quality_score :=
    _calculate_code_quality_score code_snippet comments
      (_detect_language code_snippet) in
  report input_data
  = Ok ((report_header (_detect_language code_snippet) persona
           (overall_score quality_score)
         ++ _enhance_with_resources (strip content) code_snippet comments
              (Some (_detect_language code_snippet)))%string,
        quality_score).
Proof.
  intros Hcode Hcomments Hs Hclient quality_score; subst quality_score.
  unfold generate_review_report, validate_input.
  rewrite Hcode, Hcomments.
  destruct comments as [|c cs]; [discriminate|].
  cbn [map bind str_lower_receiver].
  change (JStr c :: map JStr cs) with (map JStr (c :: cs)).
  rewrite str_lower_receivers_map; cbn [bind].
  unfold _generate_empathetic_review; rewrite Hs; cbn [bind].
  rewrite Hclient; reflexivity.
Qed.

(** X18. For the same well-formed request, a failure of the service leaves
    neither score nor report: the exception raised carries the service's
    message behind both wrappers. *)
Theorem report_of_failed_service
  (input_data : dict json) (code_snippet : string) (comments : list string)
  (s : string) (e : exn) :
  dict_lookup "code_snippet" input_data = Some (JStr code_snippet) ->
  dict_lookup "review_comments" input_data = Some (JList (map JStr comments)) ->
  overall_severity comments = Ok s ->
  client (system_prompt s (_detect_language code_snippet))
         (user_prompt (_detect_language code_snippet) code_snippet comments)
  = Raise e ->
  report input_data
  = Raise (mkExn PyException
             ("Failed to generate review report: Error generating review: "
              ++ exn_msg e)%string).
Proof.
  intros Hcode Hcomments Hs Hclient.
  unfold generate_review_report, validate_input.
  rewrite Hcode, Hcomments.
  destruct comments as [|c cs]; [discriminate|].
  cbn [map bind str_lower_receiver].
  change (JStr c :: map JStr cs) with (map JStr (c :: cs)).
  rewrite str_lower_receivers_map; cbn [bind].
  unfold _generate_empathetic_review; rewrite Hs; cbn [bind].
  rewrite Hclient; reflexivity.
Qed.

End Outcomes.

Lemma report_success_composition_witness :
  exists code_snippet comments content,
    dict_lookup "code_snippet" sample_request = Some (JStr code_snippet)
    /\ dict_lookup "review_comments" sample_request
       = Some (JList (map JStr comments))
    /\ comments <> []
    /\ _generate_empathetic_review MENTOR (fun _ => "") (fun _ _ => "")
         (fun _ _ _ => "") answering_service code_snippet comments
         (Some (_detect_language code_snippet))
       = Ok (strip content)
    /\ _calculate_code_quality_score sample_code sample_comments "python"
       = _calculate_code_quality_score code_snippet comments
           (_detect_language code_snippet)
    /\ (plain_header "python" MENTOR (26 # 4)
        ++ _enhance_with_resources "Well done." sample_code sample_comments
             (Some "python"))%string
       = (plain_header (_detect_language code_snippet) MENTOR
            (overall_score
               (_calculate_code_quality_score sample_code sample_comments "python"))
          ++ _enhance_with_resources (strip content) code_snippet comments
               (Some (_detect_language code_snippet)))%string.
Proof.
  apply (report_success_composition MENTOR (fun _ => "") (fun _ _ => "")
           (fun _ _ _ => "") plain_header answering_service sample_request
           (plain_header "python" MENTOR (26 # 4)
            ++ _enhance_with_resources "Well done." sample_code sample_comments
                 (Some "python"))%string
           (_calculate_code_quality_score sample_code sample_comments "python")).
  reflexivity.
Defined.

Lemma report_of_wellformed_request_witness :
  let quality_score :=
    _calculate_code_quality_score sample_code sample_comments
      (_detect_language sample_code) in
  generate_review_report MENTOR (fun _ => "") (fun _ _ => "") (fun _ _ _ => "")
    plain_header answering_service sample_request
  = Ok ((plain_header (_detect_language sample_code) MENTOR
           (overall_score quality_score)
         ++ _enhance_with_resources (strip "  Well done.  ") sample_code
              sample_comments (Some (_detect_language sample_code)))%string,
        quality_score).
Proof.
  apply (report_of_wellformed_request MENTOR (fun _ => "") (fun _ _ => "")
           (fun _ _ _ => "") plain_header answering_service sample_request
           sample_code sample_comments "harsh" "  Well done.  ");
    reflexivity.
Defined.

Lemma report_of_failed_service_witness :
  generate_review_report MENTOR (fun _ => "") (fun _ _ => "") (fun _ _ _ => "")
    plain_header failing_service sample_request
  = Raise (mkExn PyException
             ("Failed to generate review report: Error generating review: "
              ++ exn_msg (mkExn PyException "Connection error."))%string).
Proof.
  apply (report_of_failed_service MENTOR (fun _ => "") (fun _ _ => "")
           (fun _ _ _ => "") plain_header failing_service sample_request
           sample_code sample_comments "harsh" (mkExn PyException "Connection error."));
    reflexivity.
Defined.

(** ** Batch severity and breakdown *)

Lemma count_severity_list_count (comments : list string) (severity : string) :
  count_severity comments severity
  = list_count (comment_severities comments) severity.
Proof.
  unfold count_severity, list_count, comment_severities.
  induction comments as [|c comments IH]; simpl; [reflexivity|].
  destruct (string_dec (_assess_comment_severity c) severity) as [->|Hne].
  - rewrite String.eqb_refl; simpl; now rewrite IH.
  - apply String.eqb_neq in Hne; now rewrite Hne.
Qed.

(** X19. The severity that conditions the prompt agrees with the breakdown
    of [analyze_code_quality]: it is one of its three entries, and no entry
    has a larger count. *)
Theorem batch_severity_leads_breakdown
  (round1 : Q -> Q) (code_snippet : string) (comments : list string) (s : string) :
  overall_severity comments = Ok s ->
  let breakdown :=
    severity_breakdown (analyze_code_quality round1 code_snippet comments) in
  dict_lookup s breakdown = Some (count_severity comments s)
  /\ forall severity n, dict_lookup severity breakdown = Some n ->
                        n <= count_severity comments s.
Proof.
  intros Hs breakdown; subst breakdown.
  destruct (max_count_first_mode (comment_severities comments) s Hs)
    as (Hin & Hmax & _).
  unfold comment_severities in Hin; apply in_map_iff in Hin.
  destruct Hin as (c & Hc & _).
  pose proof (assess_comment_severity_cases c) as Hcases; rewrite Hc in Hcases.
  assert (Hle : forall t, count_severity comments t <= count_severity comments s).
  { intros t; rewrite !count_severity_list_count; apply Hmax. }
  unfold analyze_code_quality; cbn [severity_breakdown map dict_lookup].
  split.
  - destruct Hcases as [<-|[<-|[<-|[]]]]; reflexivity.
  - intros severity n.
    repeat match goal with
           | |- context [String.eqb ?a ?b] => destruct (String.eqb a b)
           end; intros H; try discriminate; injection H as <-; apply Hle.
Qed.

Lemma batch_severity_leads_breakdown_witness :
  let breakdown :=
    severity_breakdown
      (analyze_code_quality (fun x => x) "x = 1"
         ["This is terrible."; "Looks fine."; "This is awful."]) in
  dict_lookup "harsh" breakdown
  = Some (count_severity ["This is terrible."; "Looks fine."; "This is awful."] "harsh")
  /\ forall severity n, dict_lookup severity breakdown = Some n ->
       n <= count_severity ["This is terrible."; "Looks fine."; "This is awful."] "harsh".
Proof.
  apply (batch_severity_leads_breakdown (fun x => x) "x = 1"
           ["This is terrible."; "Looks fine."; "This is awful."] "harsh").
  reflexivity.
Defined.

(** X20. A batch whose comments all have one severity gets that severity. *)
Theorem unanimous_batch_severity (comments : list string) (s : string) :
  comments <> [] ->
  Forall (fun c => _assess_comment_severity c = s) comments ->
  overall_severity comments = Ok s.
Proof.
  intros Hne Hall.
  destruct (overall_severity comments) as [t|e] eqn:Ht.
  - destruct (max_count_first_mode (comment_severities comments) t Ht) as (Hin & _).
    unfold comment_severities in Hin; apply in_map_iff in Hin.
    destruct Hin as (c & Hc & Hin).
    rewrite Forall_forall in Hall; rewrite <- Hc, (Hall c Hin); reflexivity.
  - destruct comments; [contradiction | discriminate].
Qed.

Lemma unanimous_batch_severity_witness :
  overall_severity ["Looks fine."; "No type hints"] = Ok "moderate".
Proof.
  apply (unanimous_batch_severity ["Looks fine."; "No type hints"] "moderate").
  - discriminate.
  - repeat constructor.
Defined.

(** ** The system prompt *)

(** X21. The system prompt always starts with the base prompt; the three
    severities the classifier returns give three different prompts, and any
    other severity adds nothing to the base prompt. *)
Theorem system_prompt_tells_severities_apart
  (persona : ReviewerPersona) (persona_prompts : ReviewerPersona -> string)
  (base_prompt : string -> string -> string) (language : string) :
  let prompt := _create_system_prompt persona persona_prompts base_prompt in
  let base := base_prompt (persona_prompts persona) language in
  (forall severity, prefix base (prompt severity language) = true)
  /\ prompt "harsh" language <> prompt "moderate" language
  /\ prompt "harsh" language <> prompt "neutral" language
  /\ prompt "moderate" language <> prompt "neutral" language
  /\ (forall severity, ~ In severity ["harsh"; "moderate"; "neutral"] ->
                       prompt severity language = base).
Proof.
  intros prompt base; subst prompt base.
  unfold _create_system_prompt, _get_persona_prompt.
  split; [intros; apply prefix_of_append|].
  repeat split;
    try (intros H; apply string_app_inv_head in H; discriminate).
  intros severity Hnot.
  unfold dict_get, severity_adjustments; cbn [dict_lookup].
  destruct (String.eqb_spec severity "harsh") as [->|_];
    [exfalso; apply Hnot; simpl; auto|].
  destruct (String.eqb_spec severity "moderate") as [->|_];
    [exfalso; apply Hnot; simpl; auto|].
  destruct (String.eqb_spec severity "neutral") as [->|_];
    [exfalso; apply Hnot; simpl; auto|].
  apply string_app_empty_r.
Qed.

(** ** The dashboard's examples *)

(** X22. Whatever language is asked for, [load_example_data] gives a request
    with a non-empty code string and a non-empty list of comment strings,
    which the validation accepts; a language without an example gets the
    python one. *)
Theorem examples_are_wellformed (language : string) :
  wellformed_request (load_example_data language) = true
  /\ is_ok (validate_input (load_example_data language)) = true
  /\ (~ In language ["python"; "javascript"; "java"] ->
      load_example_data language = python_example).
Proof.
  unfold load_example_data, dict_get, examples; cbn [dict_lookup].
  destruct (String.eqb_spec language "python") as [->|Hp];
    [repeat split; reflexivity|].
  destruct (String.eqb_spec language "javascript") as [->|Hj];
    [repeat split; try reflexivity; intros H; exfalso; apply H; simpl; auto|].
  destruct (String.eqb_spec language "java") as [->|Hv];
    [repeat split; try reflexivity; intros H; exfalso; apply H; simpl; auto|].
  repeat split; reflexivity.
Qed.

(** The java example holds none of the java patterns: its code is detected
    as python. *)
Example java_example_detected_as_python :
  exists code_snippet,
    dict_lookup "code_snippet" (load_example_data "java") = Some (JStr code_snippet)
    /\ _detect_language code_snippet = "python".
Proof. eexists; split; reflexivity. Qed.

Lemma analysis_agrees_with_report_witness :
  let quality_score :=
    _calculate_code_quality_score sample_code sample_comments "python" in
  let final_report :=
    (plain_header "python" MENTOR (26 # 4)
     ++ _enhance_with_resources "Well done." sample_code sample_comments
          (Some "python"))%string in
  let analysis := analyze_code_quality (fun x => x) sample_code sample_comments in
  quality_metrics analysis = to_dict (fun x => x) quality_score
  /\ language analysis = _detect_language sample_code
  /\ total_issues analysis = length sample_comments
  /\ prefix (plain_header (language analysis) MENTOR (overall_score quality_score))
            final_report = true.
Proof.
  apply (analysis_agrees_with_report MENTOR (fun _ => "") (fun _ _ => "")
           (fun _ _ _ => "") plain_header answering_service (fun x => x)
           sample_request sample_code sample_comments);
    reflexivity.
Defined.

(** ** The floor of a dimension *)

Lemma clamp_floor (x : Q) : (x <= 0)%Q -> (clamp x == 0)%Q.
Proof.
  intros H; unfold clamp, py_max, py_min.
  destruct (Qlt_le_dec x 10);
    repeat match goal with
           | |- context [Qlt_le_dec ?a ?b] => destruct (Qlt_le_dec a b)
           end; lra.
Qed.

Lemma clamp_inside (x : Q) : (0 <= x)%Q -> (x <= 10)%Q -> (clamp x == x)%Q.
Proof.
  intros H0 H10; unfold clamp, py_max, py_min.
  destruct (Qlt_le_dec x 10);
    repeat match goal with
           | |- context [Qlt_le_dec ?a ?b] => destruct (Qlt_le_dec a b)
           end; lra.
Qed.

Lemma score_comment_harsh_readability (d : Dimensions) (comment : string) :
  _assess_comment_severity comment = "harsh" ->
  any_in ["naming"; "variable"; "unclear"] (lower comment) = true ->
  (dim_readability (score_comment d comment) == dim_readability d - 2)%Q.
Proof.
  intros Hs Ht; unfold score_comment; cbn [dim_readability].
  rewrite Hs, Ht; unfold add_if; cbn; lra.
Qed.

Lemma readability_loop_exact (comments : list string) (d : Dimensions) :
  Forall (fun c => _assess_comment_severity c = "harsh"
                   /\ any_in ["naming"; "variable"; "unclear"] (lower c) = true)
         comments ->
  (dim_readability (fold_left score_comment comments d)
   == dim_readability d - 2 * inject_Z (Z.of_nat (length comments)))%Q.
Proof.
  intros H; revert d; induction H as [|c comments [Hs Ht] _ IH]; intros d.
  - simpl; change (inject_Z 0) with 0%Q; lra.
  - cbn [fold_left length].
    rewrite IH, (score_comment_harsh_readability d c Hs Ht), inject_succ; lra.
Qed.

(** X24. The two-point bound is met, and the floor is reached: when every
    comment is harsh and names a readability trigger, the readability is
    7.0 - 2 n for up to three comments and 0 from four comments on. *)
Theorem harsh_naming_comments_reach_the_floor
  (code_snippet : string) (comments : list string) (language : string) :
  Forall (fun c => _assess_comment_severity c = "harsh"
                   /\ any_in ["naming"; "variable"; "unclear"] (lower c) = true)
         comments ->
  let q := _calculate_code_quality_score code_snippet comments language in
  let n := inject_Z (Z.of_nat (length comments)) in
  (length comments <= 3 -> (readability q == 7 - 2 * n)%Q)
  /\ (4 <= length comments -> (readability q == 0)%Q).
Proof.
  intros H q n; subst q; unfold _calculate_code_quality_score; cbn [readability].
  pose proof (readability_loop_exact comments baseline H) as Hd.
  cbn [dim_readability baseline] in Hd; fold n in Hd.
  assert (Hn0 : (0 <= n)%Q).
  { subst n; change 0%Q with (inject_Z 0); rewrite <- Zle_Qle; lia. }
  split; intros Hlen.
  - assert (Hn : (n <= 3)%Q).
    { subst n; change 3%Q with (inject_Z 3); rewrite <- Zle_Qle; lia. }
    rewrite (clamp_proper _ _ Hd); apply clamp_inside; lra.
  - assert (Hn : (4 <= n)%Q).
    { subst n; change 4%Q with (inject_Z 4); rewrite <- Zle_Qle; lia. }
    rewrite (clamp_proper _ _ Hd); apply clamp_floor; lra.
Qed.

Lemma harsh_naming_comments_reach_the_floor_witness :
  let comments :=
    ["Bad variable."; "Terrible naming."; "Awful variable."; "Wrong naming."] in
  let q := _calculate_code_quality_score "x = 1" comments "python" in
  let n := inject_Z (Z.of_nat (length comments)) in
  (length comments <= 3 -> (readability q == 7 - 2 * n)%Q)
  /\ (4 <= length comments -> (readability q == 0)%Q).
Proof.
  apply (harsh_naming_comments_reach_the_floor "x = 1"
           ["Bad variable."; "Terrible naming."; "Awful variable."; "Wrong naming."]
           "python").
  repeat constructor.
Defined.
